(* ===== verification/_CoqProject ===== *)
-Q . S2P
Prelude.v
NumPy.v
SimulationSpecification.v
NetworkGraph.v
Supervisor.v
Reporter.v
ReportHistories.v
Concurrency.v
Refinement.v
Trace.v
ReportConsistency.v
Executions.v
Main.v
Typing.v
