(* ===== verification/Prelude.v ===== *)
(** * nrc-estimator: the simulation orchestrator of src/Simulation.py

    ** The program
    src/Simulation.py is a script that builds a network of estimator nodes
    and supervises them; it is the only source file.  Its parts, and the
    collaborators it imports:
    - [Simulation] (lines 12-57), the object the script creates.  Its
      [set_simulation_specification] reads the run configuration through
      the [SimulationSpecification] setters; [generate_network_graph]
      builds a [NetworkGraph] (nodes and optimum point);
      [wait_until_result_founded] polls every node's
      [has_result_founded()] every 5 seconds until all have converged;
      [generate_convergence_plot] computes each node's distance-to-optimum
      series with numpy and draws two panels with matplotlib.
    - The module-level script (lines 71-91): configure, build, start every
      node as a daemon thread, wait, plot, [sys.exit()].
    - Collaborators not under src/ ([SimulationSpecification],
      [NetworkGraph], the node threads) are modelled from the spec
      (sections 4.1-4.3) and marked spec_modelled in PROJECT.json.
    The node threads run concurrently with the main thread; the only
    shared state is each node's latch and history.

    ** The library (in dependency order)
    - Prelude.v (this file): Python exceptions [PyError], the result monad
      [result] with its notation in [py_scope], Python indexing
      [py_index], [mapM], the hint databases, lemmas on indexed loops
      over [range], on stdpp list updates, and on reachability ([rtc]).
    - NumPy.v: the float operations as a class [PyFloat] with instances
      [R] (exact) and [float] (binary64, executable); numpy arrays
      [ndarray] of rank 0/1 with broadcasting [np_sub]; [dst], line 42.
    - SimulationSpecification.v: [set_simulation_specification] (lines
      19-26) over the spec's validating setters.
    - NetworkGraph.v: the node state [Node], [Thread.start] ([node_start]),
      the node's [run()] step per the spec ([node_run_step]), and the graph
      constructor as an interface [NetworkGraphBuilder] with its laws
      [NetworkGraphLaws] and an instance [path_graph].
    - Supervisor.v: [wait_until_result_founded] (lines 59-68): the scan
      with [break] ([scan], returning the queried indices) and the polling
      loop over a time-indexed view of the nodes ([wait_loop]).
    - Reporter.v: the [Simulation] object and [generate_convergence_plot]
      (lines 33-57): the nested loops appending in place to [distances],
      each iteration of the node loop in two halves ([report_distances],
      lines 40-44, and [report_estimates], line 45), the two plot calls
      ([distance_curve] and [estimate_curve], labelled [node_label j]),
      the figure ([report_finish], lines 46-57), the saved
      and shown image as output events ([IOEvent], which also records the
      graph drawing of line 77 and the console line of line 68).
    - ReportHistories.v: the report reads nothing of a node but its
      history ([histories]).
    - Concurrency.v: lines 79-91 as a transition system [sys_step]
      interleaving the main thread ([main_step]: start loop, polling loop
      statement by statement, the report one half iteration of its node
      loop at a time, exit) with the node threads
      ([thread_step], over any [run_step] meeting the spec's contract).
      The start state [init_sys] has drawn the graph (line 77); leaving
      the polling loop prints line 68 ([result_founded_msg]).
    - Refinement.v: the step-level polling loop of Concurrency.v
      implements the functional one of Supervisor.v, so that the theorems
      of Supervisor.v describe the script's loop.
    - Trace.v: the script's I/O trace [script_trace] (draw the graph,
      print, save, show).
    - ReportConsistency.v: what the report reads while the node threads
      run ([report_read], the invariant [report_inv]).
    - Executions.v: concrete runs: reaching the report, the report
      racing with a node thread, raising [ValueError], and two nodes
      whose latches revert, read by a scan that is not a snapshot.
    - Main.v: [generate_network_graph] (lines 28-31) and [setup] (lines
      72-76) against the builder interface, and the end-to-end theorem.
    - Typing.v: the numpy shape discipline as a typing invariant of the
      running script, and the absence of uncaught exceptions it gives.

    ** What is proved
    - Supervisor: the scan equals the conjunction of the latches and
      queries exactly the prefix up to the first unconverged node
      ([scan_spec]); the loop returns only at a poll where all nodes have
      converged and not before ([wait_until_result_founded_sound]); with
      latches that never revert it returns within one poll interval of
      global convergence ([wait_until_result_founded_latency]); if a node
      never converges it never returns ([wait_until_result_founded_blocks]).
    - Concurrency: whatever the interleaving, the report starts only when
      every node has latched ([plot_after_global_convergence]), though the
      scan reads the latches one at a time; with fresh nodes only
      numpy's [ValueError] is ever raised ([only_numpy_raises]).  With no
      node step in between, the report's steps compute
      [generate_convergence_plot], events and exceptions included
      ([report_steps_generate], a lemma relating the two models of lines
      36-57).  Executions show the limits: the daemon nodes may append
      while the report reads, so the saved figure can show node 0 with no
      distance on the left panel but one estimate on the right
      ([report_panels_misaligned]); the scan is not a snapshot, so with
      latches that revert the script can reach the report although at no
      instant of the run have all nodes latched ([scan_not_snapshot]):
      the soundness of the polling loop rests on the latch contract.
    - Reporter: the in-place loop refines the list comprehension of the
      spec, exceptions included ([generate_convergence_plot_distances]);
      hence the exact series ([generate_convergence_plot_series]) and the
      [IndexError] when more nodes are configured than built.  The figure
      holds one distance curve and one estimate curve per configured node,
      in node order, labelled [node_j] on both panels, labels pairwise
      distinct ([generate_convergence_plot_figure]).
    - Reporter on frozen histories: two simulations with the same node
      count, optimum and histories get the same report, whatever the
      latches and flags ([generate_convergence_plot_histories], spec 8).
    - Polling: once every node has converged when a poll starts, the
      script never sleeps again ([converged_poll_exits]).
    - Refinement (lemmas relating the two models of lines 59-68): a scan of the main thread computes [scan_loop]
      ([scan_steps]); every run of [wait_loop] that leaves the loop at
      time [t'] is an execution of the script that sleeps and scans the
      same way, prints line 68 and reaches the report at [t'], when the
      node threads can produce the nodes the function sees
      ([wait_loop_refinement]).
    - Report under interference: in every interleaving, the figure saved
      at [sys.exit()] has one curve per configured node on each panel; the
      right panel shows a prefix of the node's final history and the left
      the distances of a prefix of those estimates
      ([report_reads_prefixes]).
    - Trace: every reachable state has output a prefix of the trace
      draw, print, save, show, and a run that exits has output all of it
      ([script_io_trace]).
    - Typing: if the optimum and every estimate have one numpy shape and
      the nodes' [run()] keeps to it, each step preserves the shape
      discipline ([typed_sys_step]) and no execution raises
      ([script_never_raises]).
    - NumPy: over the reals [dst] is the Euclidean distance, symmetric,
      zero exactly on equal points; over binary64 the point [2.0 ** -k]
      is at distance [0.0] of the origin exactly for [538 <= k <= 1074],
      where its square underflows ([dst_float_underflow]).
    - Configuration and script: the validation errors
      ([set_simulation_specification_spec]), their order (Scenario C:
      before the graph is built, [setup_invalid_node_count]), and
      [script_correct], which combines the above for every builder
      satisfying the laws.

    ** Bounds and fuel
    The polling loop has no bound in the code; [wait_loop] takes one unit
    of fuel per poll and returns [None] when fuel runs out.  The latency
    theorem shows that [T / 5 + 1] units suffice when all nodes have
    converged by time [T]; the blocking theorem holds for every fuel.
    Time is in seconds, in [nat], advanced by [poll_interval = 5] per
    [sleep(5)].  The underflow theorem is checked for every [k <= 1074]
    by evaluation: below [2.0 ** -1074] the point is [0.0] itself.  Floats are an abstract [PyFloat]: the metric theorems
    use [R]; the witnesses compute with binary64 [float].  [np.sum] is
    modelled as a left-to-right sum, which matches numpy for fewer than
    eight elements; numpy's pairwise summation order for longer arrays
    is not modelled (it changes only rounding, and the metric theorems
    are over [R]).

    ** Not modelled
    Console input (replaced by the [SpecInput] record); the graph's
    generation and its connectivity check (NetworkGraph.py is not in
    src/ and spec 4.2 states only the contract, which [NetworkGraphLaws]
    records: any builder satisfying it is covered) and the rendering of
    [draw_graph] (recorded as an [IOEvent]); the nodes' estimation
    algorithm (spec 9 leaves it open: any [run_step] meeting the
    contract);
    matplotlib's rendering (the calls are recorded in [Figure] and
    [IOEvent]).  In the step relation, the inner loop of lines 40-43 runs
    as one step: it reads [len(all_calculated_xis)] once and then indexes
    below it, and a history only grows, so the estimates it reads are the
    same whenever it reads them.  [np.array(optimum_point)] (line 37) is
    read from the state at each step: nothing writes the optimum.  The
    imports and the module-level type
    annotations of lines 1-9 have no behaviour.

    ** Limits
    The converse of [wait_loop_refinement] does not hold as such: within
    one scan the step relation reads the latches at different instants,
    while [wait_loop] reads the whole node list at one instant; the scan's
    soundness under interleaving is [plot_after_global_convergence]
    instead.  src/Simulation.py has nothing left to model: the lines the
    map leaves out are imports, type annotations, docstrings and blank
    lines. *)

From stdpp Require Import base list sets relations.
From Stdlib Require Import Lia.

(** ** Python exceptions

    The exceptions the orchestrator can raise, as a data type: an
    [IndexError] when a list is indexed out of range, the [ValueError]
    numpy raises when two arrays cannot be broadcast together, the
    [RuntimeError] of starting a thread twice, and the two configuration
    errors the collaborators of [Simulation] raise. *)
Inductive PyError : Type :=
| IndexError
| ValueError
| RuntimeError
| InvalidConfiguration
| DisconnectedTopologyError.

#[export] Instance PyError_eq_dec : EqDecision PyError.
Proof. solve_decision. Defined.

(** A computation that returns a value or raises one of the exceptions. *)
Inductive result (A : Type) : Type :=
| Ok (a : A)
| Err (e : PyError).
Arguments Ok {A} a.
Arguments Err {A} e.

Definition result_bind {A B} (m : result A) (k : A -> result B) : result B :=
  match m with
  | Ok a => k a
  | Err e => Err e
  end.

Declare Scope py_scope.
Delimit Scope py_scope with py.
Notation "x <- m ;; k" := (result_bind m (fun x => k))
  (at level 60, m at next level, right associativity) : py_scope.
Open Scope py_scope.

Definition result_map {A B} (f : A -> B) (m : result A) : result B :=
  match m with
  | Ok a => Ok (f a)
  | Err e => Err e
  end.

(** [lst[i]] for an index produced by [range]: raises [IndexError] out of
    range. *)
Definition py_index {A} (l : list A) (i : nat) : result A :=
  match l !! i with
  | Some x => Ok x
  | None => Err IndexError
  end.

(** A list comprehension whose element computation may raise: the first
    exception aborts the whole list. *)
Fixpoint mapM {A B} (f : A -> result B) (l : list A) : result (list B) :=
  match l with
  | [] => Ok []
  | x :: l' => y <- f x ;; ys <- mapM f l' ;; Ok (y :: ys)
  end.

Create HintDb pysim.
Create Rewrite HintDb pysim_rw.

Ltac invc H := inversion H; subst; clear H.

Section ResultLemmas.
Context {A B : Type}.

Lemma result_bind_Ok_inv (m : result A) (k : A -> result B) b :
  result_bind m k = Ok b -> exists a, m = Ok a /\ k a = Ok b.
Proof. destruct m; simpl; [eauto | discriminate]. Qed.

Lemma result_bind_Ok (a : A) (k : A -> result B) :
  result_bind (Ok a) k = k a.
Proof. reflexivity. Qed.

Lemma result_bind_Err e (k : A -> result B) :
  result_bind (Err e) k = Err e.
Proof. reflexivity. Qed.

Lemma py_index_lookup (l : list A) i x :
  py_index l i = Ok x <-> l !! i = Some x.
Proof. unfold py_index. destruct (l !! i); split; congruence. Qed.

Lemma py_index_lt (l : list A) i :
  i < length l -> exists x, py_index l i = Ok x /\ l !! i = Some x.
Proof.
  intros Hi. destruct (lookup_lt_is_Some_2 l i Hi) as [x Hx].
  exists x. unfold py_index. by rewrite Hx.
Qed.

Lemma py_index_ge (l : list A) i :
  length l <= i -> py_index l i = Err IndexError.
Proof. intros Hi. unfold py_index. by rewrite lookup_ge_None_2. Qed.

(** [mapM] succeeds with [map g] when every element succeeds. *)
Lemma mapM_Ok (f : A -> result B) (g : A -> B) l :
  (forall x, x ∈ l -> f x = Ok (g x)) -> mapM f l = Ok (map g l).
Proof.
  induction l as [|x l IH]; intros Hf; simpl; [done|].
  rewrite Hf by set_solver. simpl. rewrite IH by set_solver. done.
Qed.

Lemma mapM_length (f : A -> result B) l ys :
  mapM f l = Ok ys -> length ys = length l.
Proof.
  revert ys; induction l as [|x l IH]; intros ys H; simpl in H.
  - by invc H.
  - destruct (f x) as [y|]; [|discriminate]; simpl in H.
    destruct (mapM f l) as [ys'|] eqn:Hys; [|discriminate]; simpl in H.
    invc H. simpl. by rewrite (IH _ eq_refl).
Qed.

(** The first element that raises decides the exception. *)
Lemma mapM_Err (f : A -> result B) l1 x l2 e :
  (forall y, y ∈ l1 -> exists b, f y = Ok b) -> f x = Err e ->
  mapM f (l1 ++ x :: l2) = Err e.
Proof.
  induction l1 as [|y l1 IH]; intros Hok Hx; simpl.
  - by rewrite Hx.
  - destruct (Hok y) as [b Hb]; [set_solver|]. rewrite Hb. simpl.
    rewrite IH; [done| |done]. intros z Hz. apply Hok. set_solver.
Qed.
(** An exception of [mapM] is the exception of one of the elements. *)
Lemma mapM_Err_inv (f : A -> result B) l e :
  mapM f l = Err e -> exists x, x ∈ l /\ f x = Err e.
Proof.
  induction l as [|x l IH]; simpl; [discriminate|].
  destruct (f x) as [y|e'] eqn:Hx; simpl.
  - destruct (mapM f l) eqn:Hl; simpl; [discriminate|].
    intros He. invc He. destruct IH as (z & Hz & Hf); [done|].
    exists z. split; [set_solver|done].
  - intros He. invc He. exists x. split; [set_solver|done].
Qed.
End ResultLemmas.

#[export] Hint Rewrite @result_bind_Ok @result_bind_Err : pysim_rw.
#[export] Hint Resolve py_index_ge : pysim.

(** ** Reachability

    The transitive-reflexive closure of a step relation is stdpp's [rtc];
    an invariant of the step relation holds in every reachable state. *)
Section Reach.
Context {S : Type} (step : relation S).

Lemma rtc_preserved (P : S -> Prop) :
  (forall s s', P s -> step s s' -> P s') ->
  forall s s', rtc step s s' -> P s -> P s'.
Proof. intros Hpres s s' Hrtc. induction Hrtc; eauto. Qed.

Lemma rtc_preserved2 (Q : S -> S -> Prop) :
  (forall s, Q s s) ->
  (forall s1 s2 s3, Q s1 s2 -> step s2 s3 -> Q s1 s3) ->
  forall s s', rtc step s s' -> Q s s'.
Proof.
  intros Hrefl Hstep s s' Hrtc.
  apply (rtc_ind_r (R:=step) (fun z => Q s z) s); eauto.
Qed.
End Reach.

(** ** Lists updated by index *)
Section ListInsert.
Context {A : Type}.

Lemma list_insert_insert_same (l : list A) i x y :
  <[i:=x]> (<[i:=y]> l) = <[i:=x]> l.
Proof. rewrite list_insert_insert. by case_decide. Qed.

Lemma take_S_insert (l : list A) i x :
  i < length l -> take (S i) (<[i:=x]> l) = take i l ++ [x].
Proof.
  intros Hi. rewrite (take_S_r _ _ x) by (apply list_lookup_insert_eq; lia).
  rewrite take_insert. case_decide; [lia|done].
Qed.

Lemma result_map_bind_fst {B C} (m : result (A * B)) (g : A * B -> C) :
  result_map fst (r <- m ;; Ok (r.1, g r)) = result_map fst m.
Proof. by destruct m. Qed.
End ListInsert.

Section IndexedLoop.
Context {A B : Type} (f : A -> result B).

(** [for j in range(k, k + m): f(l[j])] visits [l[k:k+m]] when the range
    is within the list. *)
Lemma mapM_seq_index (l : list A) k m :
  k + m <= length l ->
  mapM (fun j => x <- py_index l j ;; f x) (seq k m) = mapM f (take m (drop k l)).
Proof.
  revert k; induction m as [|m IH]; intros k Hk; [done|].
  destruct (py_index_lt l k) as (x & Hx & Hl); [lia|].
  simpl. rewrite Hx, (drop_S _ x) by done. simpl.
  destruct (f x); simpl; [|done]. rewrite IH by lia. done.
Qed.

(** Past the end of the list the loop raises [IndexError], once every
    element before has been processed without raising. *)
Lemma mapM_seq_index_error (l : list A) n :
  length l < n -> (forall x, x ∈ l -> exists b, f x = Ok b) ->
  mapM (fun j => x <- py_index l j ;; f x) (seq 0 n) = Err IndexError.
Proof.
  intros Hn Hok.
  replace (seq 0 n) with (seq 0 (length l) ++ length l :: seq (S (length l)) (n - S (length l))).
  - apply mapM_Err; [|by rewrite py_index_ge].
    intros j Hj. apply list_elem_of_In, in_seq in Hj.
    destruct (py_index_lt l j) as (x & Hx & Hl); [lia|].
    rewrite Hx. simpl. apply Hok. by eapply list_elem_of_lookup_2.
  - symmetry. replace n with (length l + S (n - S (length l))) at 1 by lia.
    by rewrite seq_app.
Qed.
End IndexedLoop.
