(* ===== verification/NumPy.v ===== *)
(** * The numpy arithmetic of [generate_convergence_plot]

    Line 42 of src/Simulation.py computes the distance of an estimate to
    the optimum as [np.sqrt(np.sum((x0 - xi) ** 2))] on numpy arrays of
    Python floats.  This file holds:
    - [PyFloat], the float operations the line uses, as a class with two
      instances: [R] (exact real arithmetic, for the metric theorems) and
      Rocq's primitive binary64 [float] (the IEEE doubles Python uses, so
      that witnesses evaluate with [vm_compute]);
    - [ndarray], numpy arrays of rank 0 or 1, and numpy's broadcasting
      subtraction [np_sub], which raises [ValueError] on incompatible
      shapes;
    - [dst], the distance of line 42, and its theorems: over [R] it is the
      Euclidean distance on arrays of equal length, symmetric, and zero
      exactly on equal arrays; over [float] it is zero on distinct points
      whose difference squares to an underflow, with the exact threshold
      for powers of two. *)

From stdpp Require Import base list.
From Stdlib Require Import PrimFloat Reals Lra.
From S2P Require Import Prelude.

(** ** Float operations *)
Class PyFloat (F : Type) := {
  fzero : F;
  fadd : F -> F -> F;
  fsub : F -> F -> F;
  fmul : F -> F -> F;
  fsqrt : F -> F;
  fltb : F -> F -> bool
}.

#[export] Instance R_PyFloat : PyFloat R := {|
  fzero := 0%R;
  fadd := Rplus;
  fsub := Rminus;
  fmul := Rmult;
  fsqrt := R_sqrt.sqrt;
  fltb := fun a b => if Rlt_dec a b then true else false
|}.

#[export] Instance float_PyFloat : PyFloat float := {|
  fzero := 0%float;
  fadd := PrimFloat.add;
  fsub := PrimFloat.sub;
  fmul := PrimFloat.mul;
  fsqrt := PrimFloat.sqrt;
  fltb := PrimFloat.ltb
|}.

(** ** numpy arrays

    [np.array(v)] of a Python float is a 0-d array, of a list of floats a
    1-d array; the estimates and the optimum point are one or the other. *)
Inductive ndarray (F : Type) : Type :=
| Arr0 (x : F)
| Arr1 (xs : list F).
Arguments Arr0 {F} x.
Arguments Arr1 {F} xs.

Section Ops.
Context {F : Type} `{PyFloat F}.

(** [a - b] with numpy's broadcasting of shapes [()] and [(n,)]: equal
    lengths subtract pointwise, a length-1 operand is stretched, any
    other pair raises [ValueError]. *)
Definition np_sub (a b : ndarray F) : result (ndarray F) :=
  match a, b with
  | Arr0 x, Arr0 y => Ok (Arr0 (fsub x y))
  | Arr0 x, Arr1 ys => Ok (Arr1 (map (fsub x) ys))
  | Arr1 xs, Arr0 y => Ok (Arr1 (map (fun x => fsub x y) xs))
  | Arr1 xs, Arr1 ys =>
      if decide (length xs = length ys) then Ok (Arr1 (zip_with fsub xs ys))
      else match xs, ys with
           | [x], _ => Ok (Arr1 (map (fsub x) ys))
           | _, [y] => Ok (Arr1 (map (fun x => fsub x y) xs))
           | _, _ => Err ValueError
           end
  end.

(** [a ** 2]: numpy squares each element ([x * x]). *)
Definition np_square (a : ndarray F) : ndarray F :=
  match a with
  | Arr0 x => Arr0 (fmul x x)
  | Arr1 xs => Arr1 (map (fun x => fmul x x) xs)
  end.

(** [np.sum(a)]: the element of a 0-d array, the sum of a 1-d one. *)
Definition np_sum (a : ndarray F) : F :=
  match a with
  | Arr0 x => x
  | Arr1 xs => foldl fadd fzero xs
  end.

(** Line 42: [dst = np.sqrt(np.sum((x0 - xi) ** 2))]. *)
Definition dst (x0 xi : ndarray F) : result F :=
  d <- np_sub x0 xi ;; Ok (fsqrt (np_sum (np_square d))).

(** The shapes numpy accepts in [x0 - xi]. *)
Definition broadcastable (a b : ndarray F) : bool :=
  match a, b with
  | Arr1 xs, Arr1 ys =>
      bool_decide (length xs = length ys) || bool_decide (length xs = 1)
      || bool_decide (length ys = 1)
  | _, _ => true
  end.
End Ops.

(** numpy's [a.shape]: [()] for a 0-d array, [(n,)] for a 1-d one. *)
Definition shape {F} (a : ndarray F) : list nat :=
  match a with Arr0 _ => [] | Arr1 xs => [length xs] end.

(** ** Errors of the broadcasting subtraction *)
Section Broadcast.
Context {F : Type} `{PyFloat F}.

Lemma np_sub_Err (a b : ndarray F) e :
  np_sub a b = Err e <-> broadcastable a b = false /\ e = ValueError.
Proof.
  destruct a as [x|xs], b as [y|ys]; simpl; try (split; [discriminate|intuition congruence]).
  case_decide as Hlen; simpl.
  - rewrite (bool_decide_eq_true_2 _ Hlen). simpl. intuition congruence.
  - rewrite (bool_decide_eq_false_2 _ Hlen).
    destruct xs as [|x [|x' xs]], ys as [|y [|y' ys]]; simpl in *;
      repeat (case_bool_decide; simpl in *; try lia);
      split; try discriminate; intuition congruence.
Qed.

(** Arrays of the same shape always broadcast. *)
Lemma shape_broadcastable (a b : ndarray F) : shape a = shape b -> broadcastable a b = true.
Proof.
  destruct a as [x|xs], b as [y|ys]; simpl; try done.
  intros Hs. injection Hs as Hs. by rewrite bool_decide_eq_true_2.
Qed.

Lemma dst_Err (x0 xi : ndarray F) e :
  dst x0 xi = Err e <-> broadcastable x0 xi = false /\ e = ValueError.
Proof.
  rewrite <- np_sub_Err. unfold dst.
  destruct (np_sub x0 xi); simpl; split; congruence.
Qed.
End Broadcast.

(** ** Over the reals: [dst] is the Euclidean distance *)
Section RealDistance.
Local Open Scope R_scope.

(** The reference the spec states: the Euclidean norm of the difference of
    two points of the same dimension. *)
Definition euclid (xs ys : list R) : R :=
  sqrt (foldr Rplus 0 (zip_with (fun a b => (a - b) * (a - b)) xs ys)).

Definition sumsq (l : list R) : R := foldr Rplus 0 (map (fun x => x * x) l).

Lemma foldl_Rplus (l : list R) a : foldl Rplus a l = a + foldr Rplus 0 l.
Proof. revert a; induction l as [|x l IH]; intros a; simpl; rewrite ?IH; lra. Qed.

Lemma sumsq_nonneg l : 0 <= sumsq l.
Proof.
  induction l as [|x l IH]; unfold sumsq in *; simpl; [lra|].
  pose proof (Rle_0_sqr x) as Hx. unfold Rsqr in Hx. lra.
Qed.

Lemma sumsq_zero l : sumsq l = 0 <-> Forall (fun x => x = 0) l.
Proof.
  induction l as [|x l IH]; unfold sumsq in *; simpl.
  - split; auto.
  - pose proof (Rle_0_sqr x) as Hx. unfold Rsqr in Hx.
    pose proof (sumsq_nonneg l) as Hl. unfold sumsq in Hl.
    rewrite Forall_cons, <- IH. split.
    + intros Hs. assert (x * x = 0) by lra.
      split; [|lra]. destruct (Rmult_integral x x); auto.
    + intros [-> Hz]. lra.
Qed.

Lemma sumsq_neg l : sumsq (map Ropp l) = sumsq l.
Proof.
  induction l as [|x l IH]; unfold sumsq in *; simpl; [done|].
  rewrite IH. f_equal. ring.
Qed.

Lemma np_sum_square_sumsq (d : ndarray R) :
  np_sum (np_square d) = match d with Arr0 x => x * x | Arr1 xs => sumsq xs end.
Proof.
  destruct d as [x|xs]; simpl; [done|].
  rewrite foldl_Rplus. unfold sumsq. lra.
Qed.

Definition np_neg (a : ndarray R) : ndarray R :=
  match a with Arr0 x => Arr0 (- x) | Arr1 xs => Arr1 (map Ropp xs) end.

Lemma zip_with_Rminus_swap (xs ys : list R) :
  zip_with Rminus ys xs = map Ropp (zip_with Rminus xs ys).
Proof.
  revert ys; induction xs as [|x xs IH]; intros [|y ys]; simpl; auto.
  rewrite IH. f_equal. ring.
Qed.

Ltac neg_map := rewrite ?map_map; do 2 f_equal;
  repeat (f_equal; [ring|]); apply map_ext; intros; simpl; ring.

(** Swapping the operands of [x0 - xi] negates the difference and raises
    in the same cases. *)
Lemma np_sub_swap (a b : ndarray R) :
  np_sub b a = match np_sub a b with Ok d => Ok (np_neg d) | Err e => Err e end.
Proof.
  destruct a as [x|xs], b as [y|ys]; simpl; [do 2 f_equal; ring|neg_map|neg_map|].
  case_decide as Hlen; case_decide; try lia.
  - by rewrite zip_with_Rminus_swap.
  - destruct xs as [|x [|x' xs]], ys as [|y [|y' ys]]; simpl in *;
      try lia; try done; neg_map.
Qed.
End RealDistance.

Section DistanceTheorems.
Local Open Scope R_scope.

Lemma np_sum_square_neg (d : ndarray R) :
  np_sum (np_square (np_neg d)) = np_sum (np_square d).
Proof.
  rewrite !np_sum_square_sumsq. destruct d; simpl; [ring|apply sumsq_neg].
Qed.

Lemma sumsq_zip_with (xs ys : list R) :
  sumsq (zip_with Rminus xs ys) = foldr Rplus 0 (zip_with (fun a b => (a - b) * (a - b)) xs ys).
Proof.
  revert ys; induction xs as [|x xs IH]; intros [|y ys]; unfold sumsq in *; simpl; auto.
  by rewrite IH.
Qed.

Lemma zip_with_Rminus_zero (xs ys : list R) :
  length xs = length ys ->
  Forall (fun x => x = 0) (zip_with Rminus xs ys) <-> xs = ys.
Proof.
  revert ys; induction xs as [|x xs IH]; intros [|y ys] Hlen; simpl in *; try lia.
  - split; auto.
  - rewrite Forall_cons, IH by lia. split.
    + intros [Hxy ->]. f_equal. lra.
    + intros Heq. injection Heq as -> ->. split; [ring|done].
Qed.

Lemma dst_Arr1 (xs ys : list R) :
  length xs = length ys -> dst (Arr1 xs) (Arr1 ys) = Ok (sqrt (sumsq (zip_with Rminus xs ys))).
Proof.
  intros Hlen. unfold dst. simpl. rewrite decide_True by done. simpl.
  rewrite foldl_Rplus, Rplus_0_l. reflexivity.
Qed.

(** C6: on two arrays of the same dimension, line 42 computes the Euclidean
    distance of the estimate to the optimum. *)
Theorem dst_euclid (xs ys : list R) :
  length xs = length ys -> dst (Arr1 xs) (Arr1 ys) = Ok (euclid xs ys).
Proof. intros Hlen. rewrite dst_Arr1 by done. unfold euclid. by rewrite sumsq_zip_with. Qed.

(** C15: the distance does not depend on the order of the operands, in value
    and in the exception raised. *)
Theorem dst_sym (x0 xi : ndarray R) : dst x0 xi = dst xi x0.
Proof.
  unfold dst. rewrite (np_sub_swap x0 xi).
  destruct (np_sub x0 xi); simpl; [by rewrite np_sum_square_neg|done].
Qed.

(** C16: on arrays of the same dimension the distance is zero exactly when
    the estimate is the optimum. *)
Theorem dst_zero_iff (xs ys : list R) :
  length xs = length ys -> dst (Arr1 xs) (Arr1 ys) = Ok 0 <-> xs = ys.
Proof.
  intros Hlen. rewrite dst_Arr1 by done.
  rewrite <- zip_with_Rminus_zero, <- sumsq_zero by done.
  pose proof (sumsq_nonneg (zip_with Rminus xs ys)).
  split.
  - intros Hs. injection Hs as Hs. by apply sqrt_eq_0.
  - intros ->. by rewrite sqrt_0.
Qed.
End DistanceTheorems.

(** ** Over binary64 floats *)
Section FloatDistance.
Local Open Scope float_scope.

(** The distance evaluates: [|(3,0) - (0,4)| = 5]. *)
Example dst_float_3_4_5 : dst (Arr1 [3; 0]) (Arr1 [0; 4]) = Ok 5.
Proof. vm_compute. reflexivity. Qed.

(** [2.0 ** -k], by [k] halvings of [1.0], each exact down to the
    smallest subnormal [2.0 ** -1074]. *)
Definition half_pow (k : nat) : float := Nat.iter k (fun x => x / 2) 1.

(** Python's [dst == 0.0] on the result of line 42, [False] when the
    line raises. *)
Definition dst_is_zero (x0 xi : ndarray float) : bool :=
  match dst x0 xi with Ok d => (d =? 0)%float | Err _ => false end.

Lemma dst_is_zero_spec x0 xi :
  dst_is_zero x0 xi = true <-> exists d, dst x0 xi = Ok d /\ (d =? 0)%float = true.
Proof.
  unfold dst_is_zero. destruct (dst x0 xi) as [d|e]; split.
  - eauto.
  - by intros (d' & Hd & ?); simplify_eq.
  - discriminate.
  - by intros (d' & ? & _).
Qed.

(** C17: with Python floats the distance of two distinct points can be
    [0.0]: the point [2.0 ** -k] on the axis is at distance [0.0] of the
    origin exactly when its square underflows, that is from [k = 538] on,
    for every [k] up to [1074] (the smallest subnormal), although it is
    never [== 0.0].  So [dst_zero_iff] holds over the reals only. *)
Theorem dst_float_underflow (k : nat) :
  k <= 1074 ->
  (half_pow k =? 0)%float = false /\
  ((exists d, dst (Arr1 [half_pow k]) (Arr1 [0]) = Ok d /\ (d =? 0)%float = true)
   <-> 538 <= k).
Proof.
  intros Hk. rewrite <- dst_is_zero_spec.
  assert (Hall : forallb (fun j => negb (half_pow j =? 0)%float &&
                     Bool.eqb (dst_is_zero (Arr1 [half_pow j]) (Arr1 [0])) (538 <=? j)%nat)
                   (seq 0 1075) = true) by (vm_compute; reflexivity).
  rewrite forallb_forall in Hall. specialize (Hall k ltac:(apply in_seq; lia)).
  apply andb_prop in Hall as [Hx Hz]. apply negb_true_iff in Hx. apply Bool.eqb_prop in Hz.
  by rewrite Hz, Nat.leb_le.
Qed.

Lemma dst_float_underflow_witness :
  (half_pow 600 =? 0)%float = false /\
  ((exists d, dst (Arr1 [half_pow 600]) (Arr1 [0]) = Ok d /\ (d =? 0)%float = true)
   <-> (538 <= 600)%nat).
Proof. apply dst_float_underflow. lia. Defined.
End FloatDistance.

Section RealWitnesses.
Local Open Scope R_scope.

Lemma dst_euclid_witness : dst (Arr1 [3; 0]) (Arr1 [0; 4]) = Ok (euclid [3; 0] [0; 4]).
Proof. apply dst_euclid. reflexivity. Defined.

Lemma dst_zero_iff_witness : dst (Arr1 [1; 2]) (Arr1 [1; 2]) = Ok 0 <-> [1; 2] = [1; 2].
Proof. apply dst_zero_iff. reflexivity. Defined.
End RealWitnesses.
