(* ===== verification/SimulationSpecification.v ===== *)
(** * The run configuration: [Simulation.set_simulation_specification]

    [set_simulation_specification] (src/Simulation.py, lines 19-26) calls
    the five setters of the [SimulationSpecification] module in a fixed
    order.  That module is not in src/: its setters are modelled from the
    spec (section 4.1), which says that reading the configuration fails
    with [InvalidConfiguration] when the node count is below 1 or the
    minimum accepted divergence is negative, and does nothing else.  The
    interactive reading itself is replaced by a record of the values read. *)

From stdpp Require Import base list.
From Stdlib Require Import ZArith PrimFloat.
From S2P Require Import Prelude NumPy.

Section Spec.
Context {F : Type} `{PyFloat F}.

(** The fields of a [SimulationSpecification] object. *)
Record SimulationSpecification := mkSpec {
  number_of_nodes : Z;
  x0 : ndarray F;
  epsilon : F;
  c : F;
  min_accepted_divergence : F
}.

(** The values the user types, in the order the setters read them. *)
Record SpecInput := mkInput {
  in_number_of_nodes : Z;
  in_x0 : ndarray F;
  in_epsilon : F;
  in_c : F;
  in_min_accepted_divergence : F
}.

Definition set_number_of_nodes (n : Z) : result Z :=
  if (n <? 1)%Z then Err InvalidConfiguration else Ok n.

Definition set_min_accepted_divergence (d : F) : result F :=
  if fltb d fzero then Err InvalidConfiguration else Ok d.

(** Lines 19-26: the setters run in order; the first that raises aborts. *)
Definition set_simulation_specification (inp : SpecInput) : result SimulationSpecification :=
  n <- set_number_of_nodes (in_number_of_nodes inp) ;;
  d <- set_min_accepted_divergence (in_min_accepted_divergence inp) ;;
  Ok (mkSpec n (in_x0 inp) (in_epsilon inp) (in_c inp) d).

(** A validated configuration. *)
Definition valid_spec (s : SimulationSpecification) : Prop :=
  (1 <= number_of_nodes s)%Z /\ fltb (min_accepted_divergence s) fzero = false.
End Spec.
Arguments SimulationSpecification F : clear implicits.
Arguments SpecInput F : clear implicits.

Section SpecTheorems.
Context {F : Type} `{PyFloat F}.

(** C14: reading the configuration succeeds exactly on a node count of at
    least 1 and a non-negative divergence, keeps every value read, and
    raises [InvalidConfiguration] otherwise. *)
Theorem set_simulation_specification_spec (inp : SpecInput F) :
  match set_simulation_specification inp with
  | Ok s => valid_spec s /\ s = mkSpec (in_number_of_nodes inp) (in_x0 inp)
              (in_epsilon inp) (in_c inp) (in_min_accepted_divergence inp)
  | Err e => e = InvalidConfiguration /\
             ((in_number_of_nodes inp < 1)%Z \/
              fltb (in_min_accepted_divergence inp) fzero = true)
  end.
Proof.
  unfold set_simulation_specification, set_number_of_nodes,
    set_min_accepted_divergence, valid_spec.
  destruct (Z.ltb_spec (in_number_of_nodes inp) 1); simpl; [auto|].
  destruct (fltb _ _) eqn:Hd; simpl; auto with lia.
Qed.

End SpecTheorems.

