(* ===== verification/NetworkGraph.v ===== *)
(** * The collaborators [NetworkGraph] and [Node]

    [Simulation.generate_network_graph] (src/Simulation.py, lines 28-31)
    builds a [NetworkGraph] from the configuration; the orchestrator then
    reads its [nodes] and [optimum_point], starts every node as a daemon
    thread and polls [has_result_founded].  Neither class is in src/: both
    are modelled from the spec (sections 4.2 and 4.3).
    - [Node]: the state the orchestrator sees of a node thread: its
      estimate history [all_calculated_xis], its local-convergence latch,
      and the [daemon]/[started] attributes of [threading.Thread];
      [node_start] is [Thread.start] and [node_run_step] one step of the
      node's [run()] as the spec describes it (append an estimate, or latch
      convergence).
    - [NetworkGraphBuilder]: the construction of the graph as an interface
      (a class), with the laws the orchestrator relies on in
      [NetworkGraphLaws]: as many fresh nodes as configured, and
      [DisconnectedTopologyError] as the only failure.  [path_graph] is an
      instance used by the witnesses. *)

From stdpp Require Import base list.
From Stdlib Require Import ZArith.
From S2P Require Import Prelude NumPy SimulationSpecification.

Section Node.
Context {F : Type}.

Record Node := mkNode {
  all_calculated_xis : list (ndarray F);
  result_founded : bool;
  daemon : bool;
  started : bool
}.

Definition has_result_founded (n : Node) : bool := result_founded n.

Definition set_daemon (n : Node) : Node :=
  mkNode (all_calculated_xis n) (result_founded n) true (started n).

(** [Thread.start()]: a thread can be started once. *)
Definition node_start (n : Node) : result Node :=
  if started n then Err RuntimeError
  else Ok (mkNode (all_calculated_xis n) (result_founded n) (daemon n) true).

Definition node_push (x : ndarray F) (n : Node) : Node :=
  mkNode (all_calculated_xis n ++ [x]) (result_founded n) (daemon n) (started n).

Definition node_latch (n : Node) : Node :=
  mkNode (all_calculated_xis n) true (daemon n) (started n).

(** One step of a started node's [run()]: it appends a new estimate, or
    sets its convergence latch. *)
Inductive node_run_step : Node -> Node -> Prop :=
| run_estimate n x : started n = true -> node_run_step n (node_push x n)
| run_converge n : started n = true -> node_run_step n (node_latch n).

(** A node as [NetworkGraph] creates it: not started, not converged. *)
Definition node_fresh (n : Node) : Prop :=
  result_founded n = false /\ started n = false /\ daemon n = false.

Lemma node_start_Err n e : node_start n = Err e -> e = RuntimeError.
Proof. unfold node_start. destruct (started n); intros He; by invc He. Qed.

Lemma node_run_step_latch n n' :
  node_run_step n n' -> result_founded n = true -> result_founded n' = true.
Proof. by intros []. Qed.

Lemma node_run_step_history n n' :
  node_run_step n n' -> exists l, all_calculated_xis n' = all_calculated_xis n ++ l.
Proof. intros []; simpl; eauto using app_nil_r. Qed.

Lemma node_run_step_started n n' :
  node_run_step n n' -> started n' = true /\ started n = true.
Proof. by intros []. Qed.
End Node.
Arguments Node F : clear implicits.

Record NetworkGraph (F : Type) := mkGraph {
  nodes : list (Node F);
  optimum_point : ndarray F
}.
Arguments mkGraph {F} nodes optimum_point.
Arguments nodes {F} _.
Arguments optimum_point {F} _.

(** The constructor [NetworkGraph(simulation_specification)]. *)
Class NetworkGraphBuilder (F : Type) := {
  build_network_graph : SimulationSpecification F -> result (NetworkGraph F)
}.

(** What the orchestrator relies on (spec 4.2). *)
Class NetworkGraphLaws (F : Type) `{PyFloat F} `{NetworkGraphBuilder F} := {
  build_nodes_length s g :
    valid_spec s -> build_network_graph s = Ok g ->
    length (nodes g) = Z.to_nat (number_of_nodes s);
  build_nodes_fresh s g :
    build_network_graph s = Ok g -> Forall node_fresh (nodes g);
  build_error s e :
    build_network_graph s = Err e -> e = DisconnectedTopologyError
}.

(** An instance: a path of [number_of_nodes] fresh nodes around a given
    optimum; a single node has no neighbour and is refused. *)
Definition fresh_node {F} : Node F := mkNode [] false false false.

Definition path_graph {F} (target : ndarray F) : NetworkGraphBuilder F := {|
  build_network_graph s :=
    if (number_of_nodes s <? 2)%Z then Err DisconnectedTopologyError
    else Ok (mkGraph (replicate (Z.to_nat (number_of_nodes s)) fresh_node) target)
|}.

#[export] Instance path_graph_laws {F} `{PyFloat F} (target : ndarray F) :
  @NetworkGraphLaws F _ (path_graph target).
Proof.
  split; simpl; intros s.
  - intros g _. destruct (Z.ltb _ _); [discriminate|]. intros Hg. invc Hg.
    simpl. apply length_replicate.
  - intros g. destruct (Z.ltb _ _); [discriminate|]. intros Hg. invc Hg.
    simpl. apply Forall_replicate. by repeat split.
  - intros e. destruct (Z.ltb _ _); [|discriminate]. intros He. by invc He.
Qed.
