(* ===== verification/Supervisor.v ===== *)
(** * The supervisor: [Simulation.wait_until_result_founded]

    src/Simulation.py, lines 59-68:
<<
    is_all_dif_accepted = False
    while True and not (is_all_dif_accepted):
        sleep(5)
        is_all_dif_accepted = True
        for i in range(len(simulation.network_graph.nodes)):
            if not (simulation.network_graph.nodes[i].has_result_founded()):
                is_all_dif_accepted = False
                break
    print("Result founded: ")
>>
    - [scan] is one poll cycle (lines 63-67).  It returns the new value of
      [is_all_dif_accepted] and the indices of the nodes whose
      [has_result_founded()] it called, in call order, which makes the
      [break] observable.
    - [wait_until_result_founded] is the loop.  The nodes run in other
      threads, so the supervisor sees them through [world t], the node
      list at time [t].  Each [sleep(5)] advances time by [poll_interval],
      and a scan reads the nodes at that instant.  Interleaving inside a
      scan is modelled in Concurrency.v.  The loop has no bound, so the
      model takes fuel, one unit per poll.  It returns [None] when the
      fuel runs out (the program is still waiting), [Some (Ok t)] when it
      leaves the loop at time [t], and [Some (Err e)] when it raises. *)

From stdpp Require Import base list.
From Stdlib Require Import Lia PrimFloat.
From S2P Require Import Prelude NumPy NetworkGraph.

Section Scan.
Context {F : Type}.

Fixpoint scan_loop (ns : list (Node F)) (idx : list nat) : result (bool * list nat) :=
  match idx with
  | [] => Ok (true, [])
  | i :: rest =>
      n <- py_index ns i ;;
      if negb (has_result_founded n) then Ok (false, [i])
      else r <- scan_loop ns rest ;; Ok (r.1, i :: r.2)
  end.

(** Lines 63-67. *)
Definition scan (ns : list (Node F)) : result (bool * list nat) :=
  scan_loop ns (seq 0 (length ns)).

(** The reference: the nodes a short-circuiting scan queries, up to and
    including the first one not converged. *)
Definition scan_reads (ns : list (Node F)) : list nat :=
  match list_find (fun n => has_result_founded n = false) ns with
  | Some (k, _) => seq 0 (S k)
  | None => seq 0 (length ns)
  end.
End Scan.

(** The delay of [sleep(5)], in seconds. *)
Definition poll_interval : nat := 5.

Section Wait.
Context {F : Type}.
Variable world : nat -> list (Node F).

Fixpoint wait_loop (fuel : nat) (t : nat) (is_all_dif_accepted : bool)
    : option (result nat) :=
  if is_all_dif_accepted then Some (Ok t)
  else match fuel with
       | O => None
       | S fuel' =>
           let t' := t + poll_interval in
           match scan (world t') with
           | Ok (b, _) => wait_loop fuel' t' b
           | Err e => Some (Err e)
           end
       end.

(** Lines 59-68, started at time 0. *)
Definition wait_until_result_founded (fuel : nat) : option (result nat) :=
  wait_loop fuel 0 false.

(** Every node of [world t] has converged. *)
Definition all_converged (t : nat) : bool := forallb has_result_founded (world t).
End Wait.

(** A world for the witnesses: node [i] latches at time [c] when the
    schedule holds [Some c] at [i], and never when it holds [None]. *)
Definition latched_at (conv : option nat) (t : nat) : bool :=
  match conv with Some c => c <=? t | None => false end.

Definition schedule_world {F} (conv : list (option nat)) (t : nat) : list (Node F) :=
  map (fun c => mkNode [] (latched_at c t) true true) conv.

Section ScanTheorems.
Context {F : Type}.

Lemma scan_loop_suffix (pre l : list (Node F)) :
  scan_loop (pre ++ l) (seq (length pre) (length l)) =
  Ok (forallb has_result_founded l,
      match list_find (fun n => has_result_founded n = false) l with
      | Some (k, _) => seq (length pre) (S k)
      | None => seq (length pre) (length l)
      end).
Proof.
  revert pre; induction l as [|n l IH]; intros pre; simpl; [done|].
  assert (Hn : py_index (pre ++ n :: l) (length pre) = Ok n).
  { apply py_index_lookup. by rewrite lookup_app_r, Nat.sub_diag by lia. }
  rewrite Hn. simpl. unfold has_result_founded in *.
  destruct (result_founded n) eqn:Hr; simpl.
  - pose proof (IH (pre ++ [n])) as IHn.
    rewrite <- app_assoc, length_app, Nat.add_1_r in IHn. simpl in IHn.
    rewrite IHn. simpl.
    destruct (list_find _ l) as [[k x]|]; reflexivity.
  - done.
Qed.

(** C4: the scan of lines 63-67 never raises; it leaves
    [is_all_dif_accepted] true exactly when every node has converged, and
    calls [has_result_founded] on the nodes in index order up to the first
    one that has not converged, then breaks. *)
Theorem scan_spec (ns : list (Node F)) :
  scan ns = Ok (forallb has_result_founded ns, scan_reads ns).
Proof.
  unfold scan, scan_reads. apply (scan_loop_suffix []).
Qed.
End ScanTheorems.

Section WaitTheorems.
Context {F : Type} (world : nat -> list (Node F)).

Lemma wait_loop_true fuel t : wait_loop world fuel t true = Some (Ok t).
Proof. by destruct fuel. Qed.

Lemma wait_loop_poll fuel t :
  wait_loop world (S fuel) t false =
  wait_loop world fuel (t + poll_interval) (all_converged world (t + poll_interval)).
Proof.
  simpl. unfold scan. pose proof (scan_loop_suffix [] (world (t + poll_interval))) as Hs.
  simpl in Hs. by rewrite Hs.
Qed.

(** The loop, entered after [j] polls, leaves at the first later poll
    instant at which all nodes have converged. *)
Lemma wait_loop_first fuel j r :
  wait_loop world fuel (j * poll_interval) false = Some r ->
  exists k, j < k /\ r = Ok (k * poll_interval) /\
    all_converged world (k * poll_interval) = true /\
    forall i, j < i < k -> all_converged world (i * poll_interval) = false.
Proof.
  revert j; induction fuel as [|fuel IH]; intros j Hw; [discriminate|].
  rewrite wait_loop_poll in Hw.
  replace (j * poll_interval + poll_interval) with (S j * poll_interval) in Hw by lia.
  destruct (all_converged world (S j * poll_interval)) eqn:Hc.
  - rewrite wait_loop_true in Hw. invc Hw.
    exists (S j). split_and!; [lia|done|done|intros; lia].
  - destruct (IH (S j) Hw) as (k & Hk & -> & Hall & Hbefore).
    exists k. split_and!; auto with lia.
    intros i Hi. destruct (decide (i = S j)) as [->|]; [done|]. apply Hbefore. lia.
Qed.

(** With [m] polls of fuel, the loop leaves at or before the [m]-th poll
    when all nodes have converged at that poll. *)
Lemma wait_loop_reaches fuel j m :
  1 <= m <= fuel -> all_converged world ((j + m) * poll_interval) = true ->
  exists k, wait_loop world fuel (j * poll_interval) false = Some (Ok (k * poll_interval))
            /\ k <= j + m.
Proof.
  revert j m; induction fuel as [|fuel IH]; intros j m Hm Hc; [lia|].
  rewrite wait_loop_poll.
  replace (j * poll_interval + poll_interval) with (S j * poll_interval) by lia.
  destruct (all_converged world (S j * poll_interval)) eqn:Hs.
  - exists (S j). rewrite wait_loop_true. split; [done|lia].
  - destruct (decide (m = 1)) as [->|Hm1].
    { rewrite Nat.add_1_r in Hc. congruence. }
    destruct (IH (S j) (m - 1)) as (k & Hk & Hle); [lia| |].
    + by replace (S j + (m - 1)) with (j + m) by lia.
    + exists k. split; [done|lia].
Qed.

(** C3: when [wait_until_result_founded] returns, it returns normally (it
    never raises), at a poll instant [k * 5] with [k >= 1], at which every
    node has converged, and no earlier poll found all nodes converged: the
    supervisor does not return before the last node latches. *)
Theorem wait_until_result_founded_sound fuel r :
  wait_until_result_founded world fuel = Some r ->
  exists k, 1 <= k /\ r = Ok (k * poll_interval) /\
    all_converged world (k * poll_interval) = true /\
    forall i, 1 <= i < k -> all_converged world (i * poll_interval) = false.
Proof.
  intros Hw. destruct (wait_loop_first fuel 0 r Hw) as (k & Hk & Hr & Hall & Hb).
  exists k. split_and!; auto with lia.
Qed.

(** C8 (Scenario B): if some node is never converged at any poll instant,
    the supervisor never returns, whatever the fuel: it blocks forever. *)
Theorem wait_until_result_founded_blocks
    (Hnever : forall k, 1 <= k -> all_converged world (k * poll_interval) = false) :
  forall fuel, wait_until_result_founded world fuel = None.
Proof.
  intros fuel. destruct (wait_until_result_founded world fuel) as [r|] eqn:Hw; [|done].
  destruct (wait_loop_first fuel 0 r Hw) as (k & Hk & _ & Hall & _).
  rewrite Hnever in Hall by lia. discriminate.
Qed.

Section Monotone.
(** The nodes' latches never revert (spec 4.3), so once all nodes have
    converged they stay converged. *)
Hypothesis all_converged_mono :
  forall t t', t <= t' -> all_converged world t = true -> all_converged world t' = true.

(** C7: if all nodes have converged at time [T], the supervisor returns,
    given [T / 5 + 1] polls of fuel, no later than [T + 5]: the detection
    latency is at most one poll interval. *)
Theorem wait_until_result_founded_latency T fuel :
  all_converged world T = true -> T / poll_interval + 1 <= fuel ->
  exists t, wait_until_result_founded world fuel = Some (Ok t) /\ t <= T + poll_interval.
Proof.
  intros HT Hfuel.
  destruct (wait_loop_reaches fuel 0 (T / poll_interval + 1)) as (k & Hw & Hk).
  - lia.
  - apply (all_converged_mono T); [|done].
    pose proof (Nat.div_mod T poll_interval). pose proof (Nat.mod_upper_bound T poll_interval).
    unfold poll_interval in *. lia.
  - exists (k * poll_interval). split; [done|].
    pose proof (Nat.div_mod T poll_interval). pose proof (Nat.mod_upper_bound T poll_interval).
    unfold poll_interval in *. nia.
Qed.
End Monotone.
End WaitTheorems.

Section ScheduleWorld.
Context {F : Type}.

Lemma latched_at_mono conv t t' : t <= t' -> latched_at conv t = true -> latched_at conv t' = true.
Proof. destruct conv; simpl; [rewrite !Nat.leb_le; lia|done]. Qed.

(** Latches given by a schedule never revert. *)
Lemma schedule_world_mono (conv : list (option nat)) t t' :
  t <= t' -> all_converged (@schedule_world F conv) t = true ->
  all_converged (@schedule_world F conv) t' = true.
Proof.
  intros Ht. unfold all_converged, schedule_world.
  induction conv as [|c conv IH]; simpl; [done|].
  rewrite !andb_true_iff. intros [Hc Hrest].
  split; [by apply (latched_at_mono c t t')|auto].
Qed.
End ScheduleWorld.

Section SupervisorWitnesses.
(** Scenario A: three nodes that latch at time 10. *)
Definition scenario_a : nat -> list (Node float) := schedule_world [Some 10; Some 10; Some 10].
(** Scenario B: node 0 latches at time 5, node 1 never. *)
Definition scenario_b : nat -> list (Node float) := schedule_world [Some 5; None].

Lemma wait_sound_witness :
  wait_until_result_founded scenario_a 3 = Some (Ok 10) /\
  exists k, 1 <= k /\ Ok 10 = Ok (k * poll_interval) /\
    all_converged scenario_a (k * poll_interval) = true /\
    forall i, 1 <= i < k -> all_converged scenario_a (i * poll_interval) = false.
Proof.
  split; [reflexivity|].
  apply (wait_until_result_founded_sound scenario_a 3). reflexivity.
Defined.

Lemma wait_blocks_witness : wait_until_result_founded scenario_b 1000 = None.
Proof.
  apply wait_until_result_founded_blocks.
  intros k _. unfold all_converged. simpl. apply andb_false_r.
Defined.

Lemma wait_latency_witness :
  exists t, wait_until_result_founded scenario_a 3 = Some (Ok t) /\ t <= 10 + poll_interval.
Proof.
  apply (wait_until_result_founded_latency scenario_a (schedule_world_mono _) 10 3);
    [reflexivity|simpl; lia].
Defined.
End SupervisorWitnesses.
