(* ===== verification/Reporter.v ===== *)
(** * The reporter: [Simulation.generate_convergence_plot]

    src/Simulation.py, lines 33-57.  The method reads the module-level
    [simulation] object (not [self]); [Simulation] is that object's state:
    its [simulation_specification] and [network_graph].  The method
    - builds [distances = [[] for a in range(number_of_nodes)]];
    - for [j] in [range(number_of_nodes)] and [i] in
      [range(len(nodes[j].all_calculated_xis))], appends the distance of
      line 42 ([NumPy.dst]) of estimate [i] of node [j] to [distances[j]]
      ([distance_loop]);
    - plots [distances[j]] on the left panel and the estimates of node [j]
      on the right panel, labelled [node_j] ([node_loop]);
    - sets the legends, titles, axis labels and grids, saves the figure to
      [books_read.png] and shows it.
    Matplotlib is not modelled as a renderer: a [Figure] records the
    curves, legends and texts each call sets, and the two I/O calls are
    returned as [IOEvent]s.

    The theorems: the nested loop with in-place appends computes the list
    comprehension [convergence_distances] (a functional refinement), hence
    one series per node with one distance per estimate, index for index;
    the exceptions are [IndexError] when the configured node count exceeds
    the graph's nodes and [ValueError] when an estimate cannot be
    broadcast against the optimum.  The figure of a report that does not
    raise has, on each panel, one curve per configured node in node
    order, labelled [node_j], labels pairwise distinct. *)

From stdpp Require Import base list strings pretty.
From Stdlib Require Import ZArith PrimFloat.
From S2P Require Import Prelude NumPy SimulationSpecification NetworkGraph.

(** The [Simulation] object (lines 12-17). *)
Record Simulation (F : Type) := mkSimulation {
  simulation_specification : SimulationSpecification F;
  network_graph : NetworkGraph F
}.
Arguments mkSimulation {F} _ _.
Arguments simulation_specification {F} _.
Arguments network_graph {F} _.

(** ** The figure *)
Inductive Series (F : Type) : Type :=
| Distances (ys : list F)
| Points (ps : list (ndarray F)).
Arguments Distances {F} ys.
Arguments Points {F} ps.

Record Curve (F : Type) := mkCurve {
  curve_data : Series F;
  curve_fmt : option string;
  curve_label : string
}.
Arguments mkCurve {F} _ _ _.
Arguments curve_data {F} _.
Arguments curve_fmt {F} _.
Arguments curve_label {F} _.

Record Axes (F : Type) := mkAxes {
  curves : list (Curve F);
  legend : option (string * nat);
  title : string;
  xlabel : string;
  ylabel : string;
  grid : bool
}.
Arguments mkAxes {F} _ _ _ _ _ _.
Arguments curves {F} _.
Arguments legend {F} _.
Arguments title {F} _.
Arguments xlabel {F} _.
Arguments ylabel {F} _.
Arguments grid {F} _.

Record Figure (F : Type) := mkFigure {
  figsize : nat * nat;
  axs0 : Axes F;
  axs1 : Axes F
}.
Arguments mkFigure {F} _ _ _.
Arguments figsize {F} _.
Arguments axs0 {F} _.
Arguments axs1 {F} _.

(** What the script writes to the outside world: the drawing of the
    graph (line 77, [NetworkGraph.draw_graph]), a line printed to the
    console, a saved and a shown figure. *)
Inductive IOEvent (F : Type) : Type :=
| DrawGraph (g : NetworkGraph F)
| PrintLine (line : string)
| SaveFig (name : string) (fig : Figure F)
| ShowFig (fig : Figure F).
Arguments DrawGraph {F} g.
Arguments PrintLine {F} line.
Arguments SaveFig {F} name fig.
Arguments ShowFig {F} fig.

(** [f'node_{j}'] *)
Definition node_label (j : nat) : string := "node_" +:+ pretty j.

Section Figure.
Context {F : Type}.

Definition empty_axes : Axes F := mkAxes [] None "" "" "" false.

(** [fig, axs = plt.subplots(1, 2, figsize=(13, 8))] *)
Definition plt_subplots : Figure F := mkFigure (13, 8) empty_axes empty_axes.

(** [ax.plot(data, [fmt,] label=...)] *)
Definition axes_plot (cv : Curve F) (ax : Axes F) : Axes F :=
  mkAxes (curves ax ++ [cv]) (legend ax) (title ax) (xlabel ax) (ylabel ax) (grid ax).

(** [ax.legend(loc=..., ncol=...)], [set_title], [set_xlabel],
    [set_ylabel] and [grid()] on one panel. *)
Definition axes_finish (loc : string) (t yl : string) (ax : Axes F) : Axes F :=
  mkAxes (curves ax) (Some (loc, 1)) t "Iteration" yl true.

(** Line 44: [axs[0].plot(distances[j], '-', label=f'node_{j}')]. *)
Definition distance_curve (j : nat) (dj : list F) : Curve F :=
  mkCurve (Distances dj) (Some "-") (node_label j).

(** Line 45: [axs[1].plot(nodes[j].all_calculated_xis, label=f'node_{j}')]. *)
Definition estimate_curve (j : nat) (xis : list (ndarray F)) : Curve F :=
  mkCurve (Points xis) None (node_label j).

(** [axs[0].plot(...)] *)
Definition plot_axs0 (cv : Curve F) (fig : Figure F) : Figure F :=
  mkFigure (figsize fig) (axes_plot cv (axs0 fig)) (axs1 fig).

(** [axs[1].plot(...)] *)
Definition plot_axs1 (cv : Curve F) (fig : Figure F) : Figure F :=
  mkFigure (figsize fig) (axs0 fig) (axes_plot cv (axs1 fig)).

(** Lines 46-55. *)
Definition finish_figure (fig : Figure F) : Figure F :=
  mkFigure (figsize fig)
    (axes_finish "lower left" "Evolution of the error on xi" "Distance till optimum point" (axs0 fig))
    (axes_finish "upper right" "Evolution xi" "Point value evolution" (axs1 fig)).

(** Lines 46-57: finish the panels, [plt.savefig('books_read.png')],
    [plt.show()]. *)
Definition report_finish (fig : Figure F) : list (IOEvent F) :=
  let fig' := finish_figure fig in [SaveFig "books_read.png" fig'; ShowFig fig'].
End Figure.

Section Reporter.
Context {F : Type} `{PyFloat F}.

(** Lines 40-43, for node [j]: the indices [idx] come from
    [range(len(nodes[j].all_calculated_xis))], evaluated once. *)
Fixpoint distance_loop (sim : Simulation F) (x0 : ndarray F) (j : nat)
    (idx : list nat) (distances : list (list F)) : result (list (list F)) :=
  match idx with
  | [] => Ok distances
  | i :: rest =>
      nj <- py_index (nodes (network_graph sim)) j ;;
      xi <- py_index (all_calculated_xis nj) i ;;
      d <- dst x0 xi ;;
      dj <- py_index distances j ;;
      distance_loop sim x0 j rest (<[j := dj ++ [d]]> distances)
  end.

(** Lines 40-44, for node [j]: read [nodes[j]], append the distances of
    its estimates to [distances[j]], plot [distances[j]] on the left
    panel. *)
Definition report_distances (sim : Simulation F) (x0 : ndarray F) (j : nat)
    (distances : list (list F)) (fig : Figure F) : result (list (list F) * Figure F) :=
  nj <- py_index (nodes (network_graph sim)) j ;;
  distances' <- distance_loop sim x0 j (seq 0 (length (all_calculated_xis nj))) distances ;;
  dj <- py_index distances' j ;;
  Ok (distances', plot_axs0 (distance_curve j dj) fig).

(** Line 45, for node [j]: read [nodes[j].all_calculated_xis] again and
    plot it on the right panel. *)
Definition report_estimates (sim : Simulation F) (j : nat) (fig : Figure F) : result (Figure F) :=
  nj <- py_index (nodes (network_graph sim)) j ;;
  Ok (plot_axs1 (estimate_curve j (all_calculated_xis nj)) fig).

(** Lines 39-45. *)
Fixpoint node_loop (sim : Simulation F) (x0 : ndarray F) (js : list nat)
    (distances : list (list F)) (fig : Figure F) : result (list (list F) * Figure F) :=
  match js with
  | [] => Ok (distances, fig)
  | j :: rest =>
      r <- report_distances sim x0 j distances fig ;;
      fig' <- report_estimates sim j r.2 ;;
      node_loop sim x0 rest r.1 fig'
  end.

(** Lines 33-57.  Returns [distances] (a local of the method) with the
    figure saved and shown. *)
Definition generate_convergence_plot (sim : Simulation F)
    : result (list (list F) * list (IOEvent F)) :=
  let n := Z.to_nat (number_of_nodes (simulation_specification sim)) in
  let x0 := optimum_point (network_graph sim) in
  r <- node_loop sim x0 (seq 0 n) (replicate n []) plt_subplots ;;
  Ok (r.1, report_finish r.2).

(** The reference: the distance series of every node, as the spec states
    it (section 4.5), node by node in index order. *)
Definition distance_series (x0 : ndarray F) (xis : list (ndarray F)) : result (list F) :=
  mapM (dst x0) xis.

Definition convergence_distances (sim : Simulation F) : result (list (list F)) :=
  mapM (fun j => nj <- py_index (nodes (network_graph sim)) j ;;
                 distance_series (optimum_point (network_graph sim)) (all_calculated_xis nj))
    (seq 0 (Z.to_nat (number_of_nodes (simulation_specification sim)))).
End Reporter.

Section ReporterTheorems.
Context {F : Type} `{PyFloat F}.

Lemma distance_loop_spec (sim : Simulation F) x0 j nj k m distances dj :
  nodes (network_graph sim) !! j = Some nj -> distances !! j = Some dj ->
  k + m <= length (all_calculated_xis nj) ->
  distance_loop sim x0 j (seq k m) distances =
  result_map (fun ds => <[j := dj ++ ds]> distances)
    (mapM (dst x0) (take m (drop k (all_calculated_xis nj)))).
Proof.
  revert k distances dj; induction m as [|m IH]; intros k distances dj Hnj Hdj Hlen; simpl.
  - by rewrite app_nil_r, list_insert_id.
  - assert (Hj : py_index (nodes (network_graph sim)) j = Ok nj) by by apply py_index_lookup.
    destruct (py_index_lt (all_calculated_xis nj) k) as (xi & Hxi & Hk); [lia|].
    rewrite Hj; cbn [result_bind]. rewrite Hxi, (drop_S _ xi) by done. simpl.
    destruct (dst x0 xi) as [d|e]; simpl; [|done].
    assert (Hd : py_index distances j = Ok dj) by by apply py_index_lookup.
    rewrite Hd. simpl.
    assert (j < length distances) by (apply lookup_lt_is_Some; eauto).
    rewrite (IH (S k) _ (dj ++ [d])); [|done|by apply list_lookup_insert_eq|lia].
    destruct (mapM _ _); simpl; [|done].
    by rewrite list_insert_insert_same, <- app_assoc.
Qed.

Definition node_series (sim : Simulation F) (j : nat) : result (list F) :=
  nj <- py_index (nodes (network_graph sim)) j ;;
  distance_series (optimum_point (network_graph sim)) (all_calculated_xis nj).

(** One iteration of the loop of lines 39-45 on a node whose series is
    still empty: the node's series is computed whole, then plotted. *)
Lemma node_loop_step (sim : Simulation F) x0 k js distances fig :
  distances !! k = Some [] ->
  node_loop sim x0 (k :: js) distances fig =
  (nj <- py_index (nodes (network_graph sim)) k ;;
   ds <- distance_series x0 (all_calculated_xis nj) ;;
   node_loop sim x0 js (<[k:=ds]> distances)
     (plot_axs1 (estimate_curve k (all_calculated_xis nj)) (plot_axs0 (distance_curve k ds) fig))).
Proof.
  intros Hk. simpl. unfold report_distances, report_estimates. destruct (nodes (network_graph sim) !! k) as [nj|] eqn:Hnj.
  2:{ unfold py_index. by rewrite Hnj. }
  assert (Hj : py_index (nodes (network_graph sim)) k = Ok nj) by by apply py_index_lookup.
  rewrite Hj; cbn [result_bind].
  rewrite (distance_loop_spec sim x0 k nj 0 _ distances []) by (done || lia).
  rewrite drop_0, take_ge by lia. unfold distance_series.
  destruct (mapM _ _) as [ds|e]; simpl; [|done].
  assert (k < length distances) by (apply lookup_lt_is_Some; eauto).
  by rewrite (proj2 (py_index_lookup _ _ _) (list_lookup_insert_eq _ _ _ H0)).
Qed.

Lemma node_loop_spec (sim : Simulation F) k m distances fig :
  k + m = length distances ->
  (forall j, k <= j < length distances -> distances !! j = Some []) ->
  result_map fst (node_loop sim (optimum_point (network_graph sim)) (seq k m) distances fig) =
  result_map (fun rest => take k distances ++ rest) (mapM (node_series sim) (seq k m)).
Proof.
  revert k distances fig; induction m as [|m IH]; intros k distances fig Hlen Hempty.
  - simpl. by rewrite take_ge, app_nil_r by lia.
  - change (seq k (S m)) with (k :: seq (S k) m).
    rewrite node_loop_step by (apply Hempty; lia). cbn [mapM]. unfold node_series at 1.
    destruct (py_index _ k) as [nj|e]; simpl; [|done].
    destruct (distance_series _ _) as [ds|e]; simpl; [|done].
    assert (k < length distances) by lia.
    rewrite IH; [|rewrite length_insert; lia|].
    + rewrite take_S_insert by done.
      destruct (mapM _ (seq (S k) m)); simpl; [by rewrite <- app_assoc|done].
    + intros j Hj. rewrite length_insert in Hj.
      rewrite list_lookup_insert_ne by lia. apply Hempty. lia.
Qed.

Lemma generate_convergence_plot_fst (sim : Simulation F) :
  result_map fst (generate_convergence_plot sim) = convergence_distances sim.
Proof.
  unfold generate_convergence_plot. rewrite result_map_bind_fst.
  rewrite node_loop_spec.
  - unfold convergence_distances, node_series. by destruct (mapM _ _).
  - by rewrite length_replicate.
  - intros j Hj. rewrite length_replicate in Hj. apply lookup_replicate_2. lia.
Qed.

(** C5: the nested loop of lines 36-45, which appends each distance in
    place to [distances[j]], computes the list comprehension of the spec:
    for each configured node in index order, the distance of each of its
    estimates to the optimum; it raises exactly the first exception that
    comprehension raises. *)
Theorem generate_convergence_plot_distances (sim : Simulation F) :
  result_map fst (generate_convergence_plot sim) = convergence_distances sim.
Proof. apply generate_convergence_plot_fst. Qed.
End ReporterTheorems.

Section ReporterCorollaries.
Context {F : Type} `{PyFloat F}.

(** The distance of line 42 when numpy does not raise. *)
Definition dst_value (x0 xi : ndarray F) : F :=
  match dst x0 xi with Ok d => d | Err _ => fzero end.

(** Every estimate of the nodes [ns] can be broadcast against [x0]. *)
Definition all_broadcastable (x0 : ndarray F) (ns : list (Node F)) : bool :=
  forallb (fun nj => forallb (broadcastable x0) (all_calculated_xis nj)) ns.

Lemma dst_value_ok x0 xi : broadcastable x0 xi = true -> dst x0 xi = Ok (dst_value x0 xi).
Proof.
  unfold dst_value. destruct (dst x0 xi) eqn:E; [done|].
  apply dst_Err in E. intros Hb. destruct E; congruence.
Qed.

Lemma distance_series_ok x0 xis :
  forallb (broadcastable x0) xis = true ->
  distance_series x0 xis = Ok (map (dst_value x0) xis).
Proof.
  rewrite forallb_forall. intros Hall. apply mapM_Ok. intros xi Hxi.
  apply dst_value_ok, Hall. by apply list_elem_of_In.
Qed.

Lemma all_broadcastable_elem x0 ns nj :
  all_broadcastable x0 ns = true -> nj ∈ ns ->
  forallb (broadcastable x0) (all_calculated_xis nj) = true.
Proof.
  unfold all_broadcastable. rewrite forallb_forall, list_elem_of_In. auto.
Qed.

Lemma node_series_all x0 (ns : list (Node F)) :
  all_broadcastable x0 ns = true ->
  mapM (fun nj => distance_series x0 (all_calculated_xis nj)) ns =
  Ok (map (fun nj => map (dst_value x0) (all_calculated_xis nj)) ns).
Proof.
  intros Hall. apply mapM_Ok. intros nj Hnj.
  apply distance_series_ok. by eapply all_broadcastable_elem.
Qed.

Lemma result_map_fst_Ok {A B} (m : result (A * B)) a :
  result_map fst m = Ok a -> exists b, m = Ok (a, b).
Proof. destruct m as [[x y]|]; simpl; [intros Ha; invc Ha; eauto|discriminate]. Qed.

(** C10: when the graph has at least [number_of_nodes] nodes and every
    estimate has a shape numpy can subtract from the optimum, the report
    holds one series per configured node, and the series of node [j] is
    the distance of each of its estimates to the optimum, index for index
    (an empty history gives an empty series). *)
Theorem generate_convergence_plot_series (sim : Simulation F) :
  Z.to_nat (number_of_nodes (simulation_specification sim)) <= length (nodes (network_graph sim)) ->
  all_broadcastable (optimum_point (network_graph sim))
    (take (Z.to_nat (number_of_nodes (simulation_specification sim))) (nodes (network_graph sim))) = true ->
  exists out, generate_convergence_plot sim =
    Ok (map (fun nj => map (dst_value (optimum_point (network_graph sim))) (all_calculated_xis nj))
           (take (Z.to_nat (number_of_nodes (simulation_specification sim))) (nodes (network_graph sim))),
        out).
Proof.
  intros Hn Hb. apply result_map_fst_Ok.
  rewrite generate_convergence_plot_fst. unfold convergence_distances, node_series.
  rewrite mapM_seq_index, drop_0 by lia. by apply node_series_all.
Qed.

(** C11: when [number_of_nodes] exceeds the nodes of the graph (and no
    estimate raises before), the report raises [IndexError] at
    [nodes[len(nodes)]]. *)
Theorem generate_convergence_plot_index_error (sim : Simulation F) :
  length (nodes (network_graph sim)) < Z.to_nat (number_of_nodes (simulation_specification sim)) ->
  all_broadcastable (optimum_point (network_graph sim)) (nodes (network_graph sim)) = true ->
  generate_convergence_plot sim = Err IndexError.
Proof.
  intros Hn Hb. pose proof (generate_convergence_plot_fst sim) as Hd.
  unfold convergence_distances, node_series in Hd.
  rewrite mapM_seq_index_error in Hd; [|done|].
  - destruct (generate_convergence_plot sim) as [[]|]; simpl in Hd; congruence.
  - intros nj Hnj. eexists. apply distance_series_ok. by eapply all_broadcastable_elem.
Qed.
End ReporterCorollaries.

#[export] Instance node_label_inj : Inj (=) (=) node_label.
Proof. intros i j Hij. by apply (inj pretty), (inj (String.append "node_")). Qed.

Section ReporterFigure.
Context {F : Type} `{PyFloat F}.

Lemma curve_labels {A} (f : nat -> A -> Curve F) (js : list nat) (xs : list A) :
  (forall j x, curve_label (f j x) = node_label j) -> length js = length xs ->
  map curve_label (zip_with f js xs) = map node_label js.
Proof.
  intros Hf. revert xs; induction js as [|j js IH]; intros [|x xs] Hl; simpl in *; try done.
  rewrite Hf, IH; [done|lia].
Qed.

(** What the loop of lines 39-45 does to the figure: over nodes
    [k .. k+m-1] it appends, on each panel, one curve per node in index
    order, and it leaves the series of the nodes before [k] alone. *)
Lemma node_loop_figure (sim : Simulation F) x0 k m distances fig ds fig' :
  (forall j, k <= j < k + m -> distances !! j = Some []) ->
  node_loop sim x0 (seq k m) distances fig = Ok (ds, fig') ->
  length ds = length distances /\ (forall j, j < k -> ds !! j = distances !! j) /\
  m <= length (nodes (network_graph sim)) - k /\ figsize fig' = figsize fig /\
  curves (axs0 fig') = curves (axs0 fig) ++ zip_with distance_curve (seq k m) (take m (drop k ds)) /\
  curves (axs1 fig') = curves (axs1 fig) ++
    zip_with estimate_curve (seq k m) (map all_calculated_xis (take m (drop k (nodes (network_graph sim))))).
Proof.
  revert k distances fig; induction m as [|m IH]; intros k distances fig Hempty Hrun.
  - simpl in Hrun. invc Hrun. rewrite !app_nil_r. split_and!; done || lia.
  - change (seq k (S m)) with (k :: seq (S k) m) in Hrun.
    rewrite node_loop_step in Hrun by (apply Hempty; lia).
    destruct (py_index _ k) as [nj|] eqn:Hnj; simpl in Hrun; [|discriminate].
    destruct (distance_series _ _) as [dk|]; simpl in Hrun; [|discriminate].
    apply py_index_lookup in Hnj.
    assert (Hk : k < length distances) by (apply lookup_lt_is_Some; rewrite Hempty; eauto with lia).
    apply IH in Hrun as (Hl & Hpre & Hn & Hsz & H0 & H1);
      [|intros j Hj; rewrite list_lookup_insert_ne by lia; apply Hempty; lia].
    assert (Hdk : ds !! k = Some dk) by (rewrite Hpre by lia; by apply list_lookup_insert_eq).
    pose proof (lookup_lt_Some _ _ _ Hnj).
    split_and!.
    + by rewrite Hl, length_insert.
    + intros j Hj. rewrite Hpre by lia. apply list_lookup_insert_ne. lia.
    + lia.
    + done.
    + rewrite H0, (drop_S ds dk k) by done. simpl. by rewrite <- app_assoc.
    + rewrite H1, (drop_S _ nj k) by done. simpl. by rewrite <- app_assoc.
Qed.

(** C19: the figure of a report that does not raise: it is created with
    size 13x8; its left panel holds, in node order, the distance series
    of each configured node and its right panel the estimates of each
    node, the curve of node [j] being labelled [node_j] on both panels, so
    that the legend labels of a panel are pairwise distinct; the same
    figure is saved to [books_read.png], then shown. *)
Theorem generate_convergence_plot_figure (sim : Simulation F) ds evs :
  generate_convergence_plot sim = Ok (ds, evs) ->
  exists fig, evs = [SaveFig "books_read.png" fig; ShowFig fig] /\ figsize fig = (13, 8) /\
    curves (axs0 fig) =
      zip_with distance_curve (seq 0 (Z.to_nat (number_of_nodes (simulation_specification sim)))) ds /\
    curves (axs1 fig) =
      zip_with estimate_curve (seq 0 (Z.to_nat (number_of_nodes (simulation_specification sim))))
        (map all_calculated_xis
           (take (Z.to_nat (number_of_nodes (simulation_specification sim))) (nodes (network_graph sim)))) /\
    map curve_label (curves (axs0 fig)) = map curve_label (curves (axs1 fig)) /\
    NoDup (map curve_label (curves (axs0 fig))).
Proof.
  unfold generate_convergence_plot.
  set (n := Z.to_nat (number_of_nodes (simulation_specification sim))).
  destruct (node_loop _ _ _ _ _) as [[ds' fig']|] eqn:Hrun; simpl; [|discriminate].
  intros He. invc He.
  apply node_loop_figure in Hrun as (Hl & _ & Hn & Hsz & H0 & H1);
    [|intros j Hj; apply lookup_replicate_2; lia].
  rewrite length_replicate in Hl. rewrite drop_0, take_ge in H0 by lia. rewrite drop_0 in H1.
  cbn [curves axs0 axs1 plt_subplots empty_axes app] in H0, H1, Hsz.
  eexists. split_and!; [reflexivity|exact Hsz|exact H0|exact H1| |].
  - cbn [curves axs0 axs1 finish_figure axes_finish]. rewrite H0, H1, !curve_labels; try done.
    + rewrite length_map, length_take, length_seq. lia.
    + by rewrite length_seq.
  - cbn [curves axs0 finish_figure axes_finish]. rewrite H0, curve_labels by (done || by rewrite length_seq).
    apply NoDup_fmap_2; [apply _|apply NoDup_seq].
Qed.
End ReporterFigure.

Section ReporterWitnesses.
Local Open Scope float_scope.

Definition report_node (xis : list (ndarray float)) : Node float := mkNode xis true true true.

(** Two nodes around the optimum [(0, 0)]: one with estimates [(3, 4)]
    and [(0, 0)], one silent; [n] nodes configured. *)
Definition report_sim (n : Z) : Simulation float :=
  mkSimulation (mkSpec n (Arr1 [0; 0]) 1 1 0)
    (mkGraph [report_node [Arr1 [3; 4]; Arr1 [0; 0]]; report_node []] (Arr1 [0; 0])).

Lemma report_series_witness :
  exists out, generate_convergence_plot (report_sim 2) =
    Ok (map (fun nj => map (dst_value (optimum_point (network_graph (report_sim 2))))
                             (all_calculated_xis nj))
            (take (Z.to_nat (number_of_nodes (simulation_specification (report_sim 2))))
                  (nodes (network_graph (report_sim 2)))), out).
Proof. apply generate_convergence_plot_series; vm_compute; [lia|reflexivity]. Defined.

Example report_series_values :
  map (fun nj => map (dst_value (Arr1 [0; 0])) (all_calculated_xis nj))
      (nodes (network_graph (report_sim 2))) = [[5; 0]; []].
Proof. vm_compute. reflexivity. Qed.

Lemma report_index_error_witness : generate_convergence_plot (report_sim 3) = Err IndexError.
Proof. apply generate_convergence_plot_index_error; vm_compute; [lia|reflexivity]. Defined.
(** The figure of the two-node report: curves [node_0] and [node_1] on
    each panel. *)
Lemma generate_convergence_plot_figure_witness :
  exists ds evs, generate_convergence_plot (report_sim 2) = Ok (ds, evs) /\
  exists fig, evs = [SaveFig "books_read.png" fig; ShowFig fig] /\ figsize fig = (13, 8)%nat /\
    curves (axs0 fig) =
      zip_with distance_curve (seq 0 (Z.to_nat (number_of_nodes (simulation_specification (report_sim 2))))) ds /\
    curves (axs1 fig) =
      zip_with estimate_curve (seq 0 (Z.to_nat (number_of_nodes (simulation_specification (report_sim 2)))))
        (map all_calculated_xis
           (take (Z.to_nat (number_of_nodes (simulation_specification (report_sim 2))))
              (nodes (network_graph (report_sim 2))))) /\
    map curve_label (curves (axs0 fig)) = map curve_label (curves (axs1 fig)) /\
    NoDup (map curve_label (curves (axs0 fig))).
Proof.
  eexists _, _. split; [vm_compute; reflexivity|].
  apply generate_convergence_plot_figure. vm_compute. reflexivity.
Defined.

Example report_figure_labels :
  exists ds evs, generate_convergence_plot (report_sim 2) = Ok (ds, evs) /\
  exists fig, evs = [SaveFig "books_read.png" fig; ShowFig fig] /\
    map curve_label (curves (axs0 fig)) = ["node_0"; "node_1"]%string.
Proof.
  eexists _, _. split; [vm_compute; reflexivity|].
  eexists. split; [reflexivity|vm_compute; reflexivity].
Qed.
End ReporterWitnesses.

Section ReporterErrors.
Context {F : Type} `{PyFloat F}.

Lemma distance_series_Err x0 xis e : distance_series x0 xis = Err e -> e = ValueError.
Proof.
  intros He. apply mapM_Err_inv in He as (xi & _ & Hxi). by apply dst_Err in Hxi as [_ ->].
Qed.

(** C23: the report raises only [IndexError], and only when more nodes
    are configured than the graph has, or numpy's [ValueError]. *)
Theorem generate_convergence_plot_Err (sim : Simulation F) e :
  generate_convergence_plot sim = Err e ->
  e = ValueError \/
  (e = IndexError /\
   length (nodes (network_graph sim)) < Z.to_nat (number_of_nodes (simulation_specification sim))).
Proof.
  intros He. pose proof (generate_convergence_plot_fst sim) as Hd.
  rewrite He in Hd. simpl in Hd. symmetry in Hd.
  destruct (decide (Z.to_nat (number_of_nodes (simulation_specification sim))
                    <= length (nodes (network_graph sim)))) as [Hle|Hlt].
  - left. unfold convergence_distances, node_series in Hd.
    rewrite mapM_seq_index in Hd by lia.
    apply mapM_Err_inv in Hd as (nj & _ & Hnj). by eapply distance_series_Err.
  - unfold convergence_distances, node_series in Hd.
    apply mapM_Err_inv in Hd as (j & _ & Hj).
    unfold py_index in Hj. destruct (_ !! j); simpl in Hj.
    + left. by eapply distance_series_Err.
    + right. invc Hj. split; [done|lia].
Qed.
End ReporterErrors.

Lemma generate_convergence_plot_Err_witness :
  generate_convergence_plot (report_sim 3) = Err IndexError /\
  (IndexError = ValueError \/
   (IndexError = IndexError /\
    length (nodes (network_graph (report_sim 3))) <
      Z.to_nat (number_of_nodes (simulation_specification (report_sim 3))))).
Proof.
  split; [vm_compute; reflexivity|].
  apply generate_convergence_plot_Err. vm_compute. reflexivity.
Defined.

(** ** The two halves of one iteration of the node loop

    What Concurrency.v needs to run the loop of lines 39-45 one half
    iteration at a time. *)
Section ReportHalves.
Context {F : Type} `{PyFloat F}.

Lemma distance_loop_length (sim : Simulation F) x0 j idx ds ds' :
  distance_loop sim x0 j idx ds = Ok ds' -> length ds' = length ds.
Proof.
  revert ds; induction idx as [|i idx IH]; intros ds Hd; simpl in Hd; [by invc Hd|].
  destruct (py_index _ j); simpl in Hd; [|discriminate].
  destruct (py_index _ i); simpl in Hd; [|discriminate].
  destruct (dst _ _); simpl in Hd; [|discriminate].
  destruct (py_index ds j); simpl in Hd; [|discriminate].
  rewrite (IH _ Hd). apply length_insert.
Qed.

Lemma report_distances_length (sim : Simulation F) x0 j ds fig ds' fig' :
  report_distances sim x0 j ds fig = Ok (ds', fig') -> length ds' = length ds.
Proof.
  unfold report_distances. destruct (py_index _ j); simpl; [|discriminate].
  destruct (distance_loop _ _ _ _ _) eqn:Hd; simpl; [|discriminate].
  destruct (py_index _ j); simpl; [|discriminate].
  intros Hr. invc Hr. by eapply distance_loop_length.
Qed.

(** Lines 40-44 on an existing node with an existing series: the node's
    distance series is computed whole, appended and plotted. *)
Lemma report_distances_spec (sim : Simulation F) x0 j ds fig nj dj :
  nodes (network_graph sim) !! j = Some nj -> ds !! j = Some dj ->
  report_distances sim x0 j ds fig =
  result_map (fun dsj => (<[j := dj ++ dsj]> ds, plot_axs0 (distance_curve j (dj ++ dsj)) fig))
    (distance_series x0 (all_calculated_xis nj)).
Proof.
  intros Hnj Hdj. unfold report_distances.
  rewrite (proj2 (py_index_lookup _ _ _) Hnj); cbn [result_bind].
  rewrite (distance_loop_spec sim x0 j nj 0 _ ds dj) by (done || lia).
  rewrite drop_0, take_ge by lia. unfold distance_series.
  destruct (mapM _ _) as [dsj|e]; simpl; [|done].
  assert (j < length ds) by (apply lookup_lt_is_Some; eauto).
  by rewrite (proj2 (py_index_lookup _ _ _) (list_lookup_insert_eq _ _ _ H0)).
Qed.

Lemma report_distances_Err (sim : Simulation F) x0 j ds fig e :
  j < length (nodes (network_graph sim)) -> j < length ds ->
  report_distances sim x0 j ds fig = Err e -> e = ValueError.
Proof.
  intros Hj Hds. destruct (lookup_lt_is_Some_2 _ _ Hj) as [nj Hnj].
  destruct (lookup_lt_is_Some_2 _ _ Hds) as [dj Hdj].
  rewrite (report_distances_spec sim x0 j ds fig nj dj Hnj Hdj).
  destruct (distance_series _ _) eqn:Hs; simpl; [discriminate|].
  intros He. invc He. by eapply distance_series_Err.
Qed.

Lemma report_estimates_Err (sim : Simulation F) j fig e :
  report_estimates sim j fig = Err e -> e = IndexError /\ length (nodes (network_graph sim)) <= j.
Proof.
  unfold report_estimates, py_index. destruct (_ !! j) eqn:Hj; simpl; [discriminate|].
  intros He. invc He. split; [done|]. by apply lookup_ge_None.
Qed.
Lemma report_distances_Ok_inv (sim : Simulation F) x0 j ds fig ds' fig' :
  ds !! j = Some [] -> report_distances sim x0 j ds fig = Ok (ds', fig') ->
  exists nj dsj, nodes (network_graph sim) !! j = Some nj /\
    distance_series x0 (all_calculated_xis nj) = Ok dsj /\
    ds' = <[j := dsj]> ds /\ fig' = plot_axs0 (distance_curve j dsj) fig.
Proof.
  intros Hdj Hr. destruct (nodes (network_graph sim) !! j) as [nj|] eqn:Hnj.
  - rewrite (report_distances_spec sim x0 j ds fig nj []) in Hr by done.
    destruct (distance_series _ _) as [dsj|] eqn:Hs; simpl in Hr; [|discriminate].
    invc Hr. by exists nj, dsj.
  - unfold report_distances, py_index in Hr. by rewrite Hnj in Hr.
Qed.

Lemma report_estimates_Ok_inv (sim : Simulation F) j fig fig' :
  report_estimates sim j fig = Ok fig' ->
  exists nj, nodes (network_graph sim) !! j = Some nj /\
    fig' = plot_axs1 (estimate_curve j (all_calculated_xis nj)) fig.
Proof.
  unfold report_estimates, py_index. destruct (_ !! j) as [nj|]; simpl; [|discriminate].
  intros He. invc He. by exists nj.
Qed.
End ReportHalves.
