(* ===== verification/ReportHistories.v ===== *)
(** * The report depends on the histories only

    Spec section 8 asks that invoking the reporter twice on the same
    frozen histories give identical series.  [generate_convergence_plot]
    (src/Simulation.py, lines 33-57) reads the configured node count, the
    optimum point and, of each node, only [all_calculated_xis]: two
    simulations that agree on these give the same result, series, figure
    and exceptions alike, whatever the nodes' latches, daemon flags and
    started flags and the other configuration fields
    ([generate_convergence_plot_histories]). *)

From stdpp Require Import base list strings.
From Stdlib Require Import ZArith Lia PrimFloat.
From S2P Require Import Prelude NumPy SimulationSpecification NetworkGraph Reporter.

Section Histories.
Context {F : Type} `{PyFloat F}.

(** The estimate histories of the graph's nodes, in node order. *)
Definition histories (g : NetworkGraph F) : list (list (ndarray F)) :=
  map all_calculated_xis (nodes g).

Lemma lookup_histories (g g' : NetworkGraph F) j :
  histories g = histories g' ->
  all_calculated_xis <$> (nodes g !! j) = all_calculated_xis <$> (nodes g' !! j).
Proof.
  unfold histories. intros Hh. rewrite <- !list_lookup_fmap.
  change (all_calculated_xis <$> nodes g) with (map all_calculated_xis (nodes g)).
  change (all_calculated_xis <$> nodes g') with (map all_calculated_xis (nodes g')).
  by rewrite Hh.
Qed.

(** [nodes[j]] followed by a computation that reads only the history of
    the node gives the same result on both graphs. *)
Lemma py_index_histories {B} (sim sim' : Simulation F) j (k : list (ndarray F) -> result B) :
  histories (network_graph sim) = histories (network_graph sim') ->
  (nj <- py_index (nodes (network_graph sim)) j ;; k (all_calculated_xis nj)) =
  (nj <- py_index (nodes (network_graph sim')) j ;; k (all_calculated_xis nj)).
Proof.
  intros Hh. pose proof (lookup_histories _ _ j Hh) as Hj. unfold py_index.
  destruct (nodes _ !! j), (nodes _ !! j); simpl in *; simplify_eq; congruence.
Qed.

Section Same.
Variables sim sim' : Simulation F.
Hypothesis Hh : histories (network_graph sim) = histories (network_graph sim').

Lemma distance_loop_histories x0 j idx ds :
  distance_loop sim x0 j idx ds = distance_loop sim' x0 j idx ds.
Proof.
  revert ds. induction idx as [|i idx IH]; intros ds; [done|]. simpl.
  apply (py_index_histories sim sim' j
           (fun xis => xi <- py_index xis i ;; d <- dst x0 xi ;; dj <- py_index ds j ;;
                       distance_loop sim x0 j idx (<[j := dj ++ [d]]> ds))) in Hh as E.
  rewrite E. unfold py_index. destruct (nodes _ !! j); simpl; [|done].
  destruct (_ !! i); simpl; [|done]. destruct (dst _ _); simpl; [|done].
  destruct (ds !! j); simpl; [apply IH|done].
Qed.

Lemma report_distances_histories x0 j ds fig :
  report_distances sim x0 j ds fig = report_distances sim' x0 j ds fig.
Proof.
  set (k := fun xis : list (ndarray F) => distances' <- distance_loop sim' x0 j (seq 0 (length xis)) ds ;;
                       dj <- py_index distances' j ;; Ok (distances', plot_axs0 (distance_curve j dj) fig)).
  transitivity (nj <- py_index (nodes (network_graph sim)) j ;; k (all_calculated_xis nj)).
  - unfold report_distances, py_index. destruct (nodes _ !! j); simpl; [|done].
    by rewrite distance_loop_histories.
  - exact (py_index_histories sim sim' j k Hh).
Qed.

Lemma report_estimates_histories j fig :
  report_estimates sim j fig = report_estimates sim' j fig.
Proof.
  apply (py_index_histories sim sim' j (fun xis => Ok (plot_axs1 (estimate_curve j xis) fig)) Hh).
Qed.

Lemma node_loop_histories x0 js ds fig :
  node_loop sim x0 js ds fig = node_loop sim' x0 js ds fig.
Proof.
  revert ds fig. induction js as [|j js IH]; intros ds fig; [done|]. simpl.
  rewrite report_distances_histories. destruct (report_distances sim' _ _ _ _) as [[ds1 fig1]|]; [|done].
  simpl. rewrite report_estimates_histories. destruct (report_estimates sim' _ _); [apply IH|done].
Qed.
End Same.

(** C24: the report is a function of the configured node count, the
    optimum point and the nodes' histories: on the same frozen histories
    it returns the same series and writes the same figure, or raises the
    same exception, whatever the nodes' latches, daemon and started flags
    and the other fields of the configuration. *)
Theorem generate_convergence_plot_histories (sim sim' : Simulation F) :
  number_of_nodes (simulation_specification sim) = number_of_nodes (simulation_specification sim') ->
  optimum_point (network_graph sim) = optimum_point (network_graph sim') ->
  histories (network_graph sim) = histories (network_graph sim') ->
  generate_convergence_plot sim = generate_convergence_plot sim'.
Proof.
  intros Hn Hx Hh. unfold generate_convergence_plot. rewrite Hn, Hx.
  by rewrite (node_loop_histories sim sim' Hh).
Qed.
End Histories.

(** The two-node report of Reporter.v, and the same histories with other
    latches and flags and another [epsilon], [c] and divergence. *)
Lemma generate_convergence_plot_histories_witness :
  generate_convergence_plot (report_sim 2) =
  generate_convergence_plot
    (mkSimulation (mkSpec 2 (Arr1 [0%float; 0%float]) 5%float 7%float 1%float)
       (mkGraph [mkNode [Arr1 [3%float; 4%float]; Arr1 [0%float; 0%float]] false false false;
                 mkNode [] false true false] (Arr1 [0%float; 0%float]))).
Proof. apply generate_convergence_plot_histories; reflexivity. Defined.
