(* ===== verification/Concurrency.v ===== *)
(** * The threads of the script: starting, polling, plotting

    src/Simulation.py, lines 79-91, as a transition system in which the
    main thread and the node threads interleave arbitrarily.
    - The main thread runs the start loop of lines 80-82 ([MStart i]), the
      polling loop of [wait_until_result_founded] (lines 60-67:
      [MWait is_all_dif_accepted] at the loop head, [MScan i] inside the
      [for] loop, with [is_all_dif_accepted] true there), the report of
      line 88 ([MPlot] on entry; then, for each node [j], [MReport j]
      before lines 40-44 and [MReportXis j] before line 45, with the
      method's locals [distances] and [fig]) and [sys.exit()] ([MExit]).
      An exception stops it in [MRaised].
    - A node thread takes steps of its [run()] once started, at any point
      until [sys.exit()] ends the process: the threads are daemons, and
      nothing stops them before the report.
    - The nodes' [run()] is the collaborator's: [run_step] is a section
      variable, constrained only by what the spec asks of a node (its
      latch never reverts, its history only grows, it stays started).
      [NetworkGraph.node_run_step] satisfies these constraints.
    The theorems: the report starts only when every node has latched,
    although the scan reads the latches one at a time while the nodes run
    ([plot_after_global_convergence]); a poll that starts with every node
    converged ends the polling loop ([converged_poll_exits]); starting the
    threads never raises, so the only exception is numpy's
    ([only_numpy_raises]); without node steps in between, the report's
    steps compute [generate_convergence_plot] ([report_steps_generate],
    which ties this model of lines 36-57 to the one of Reporter.v). *)

From stdpp Require Import base list relations strings.
From Stdlib Require Import ZArith Lia PrimFloat.
From S2P Require Import Prelude NumPy SimulationSpecification NetworkGraph Supervisor Reporter.

(** The control points of the main thread, with the locals that are live
    there. *)
Inductive MainPc (F : Type) : Type :=
| MStart (i : nat)
| MWait (is_all_dif_accepted : bool)
| MScan (i : nat)
| MPlot
| MReport (j : nat) (distances : list (list F)) (fig : Figure F)
| MReportXis (j : nat) (distances : list (list F)) (fig : Figure F)
| MExit
| MRaised (e : PyError).
Arguments MStart {F} i.
Arguments MWait {F} is_all_dif_accepted.
Arguments MScan {F} i.
Arguments MPlot {F}.
Arguments MReport {F} j distances fig.
Arguments MReportXis {F} j distances fig.
Arguments MExit {F}.
Arguments MRaised {F} e.

Record Sys (F : Type) := mkSys {
  sys_sim : Simulation F;
  pc : MainPc F;
  clock : nat;
  output : list (IOEvent F)
}.
Arguments mkSys {F} _ _ _ _.
Arguments sys_sim {F} _.
Arguments pc {F} _.
Arguments clock {F} _.
Arguments output {F} _.

Section System.
Context {F : Type} `{PyFloat F}.

Definition sys_nodes (s : Sys F) : list (Node F) := nodes (network_graph (sys_sim s)).

Definition with_nodes (s : Sys F) (ns : list (Node F)) : Sys F :=
  mkSys (mkSimulation (simulation_specification (sys_sim s))
           (mkGraph ns (optimum_point (network_graph (sys_sim s)))))
        (pc s) (clock s) (output s).

Definition with_pc (s : Sys F) (p : MainPc F) : Sys F :=
  mkSys (sys_sim s) p (clock s) (output s).

(** [simulation.simulation_specification.number_of_nodes], the bound of
    the report's loops (lines 36 and 39). *)
Definition report_nodes (s : Sys F) : nat :=
  Z.to_nat (number_of_nodes (simulation_specification (sys_sim s))).

(** The state after [simulation.generate_network_graph] and
    [simulation.network_graph.draw_graph()] (lines 76-77): the graph has
    been drawn, nothing is started. *)
Definition init_sys (sim : Simulation F) : Sys F :=
  mkSys sim (MStart 0) 0 [DrawGraph (network_graph sim)].

(** Line 68: [print("Result founded: ")], once the polling loop ends. *)
Definition result_founded_msg : IOEvent F := PrintLine "Result founded: "%string.

(** The main thread, one step per statement that touches shared state. *)
Inductive main_step : Sys F -> Sys F -> Prop :=
| step_start s i n n' :
    pc s = MStart i -> sys_nodes s !! i = Some n -> node_start (set_daemon n) = Ok n' ->
    main_step s (with_pc (with_nodes s (<[i := n']> (sys_nodes s))) (MStart (S i)))
| step_start_raise s i n e :
    pc s = MStart i -> sys_nodes s !! i = Some n -> node_start (set_daemon n) = Err e ->
    main_step s (with_pc s (MRaised e))
| step_start_done s i :
    pc s = MStart i -> length (sys_nodes s) <= i ->
    main_step s (with_pc s (MWait false))
| step_wait_exit s :
    pc s = MWait true ->
    main_step s (mkSys (sys_sim s) MPlot (clock s) (output s ++ [result_founded_msg]))
| step_sleep s :
    pc s = MWait false ->
    main_step s (mkSys (sys_sim s) (MScan 0) (clock s + poll_interval) (output s))
| step_scan_next s i n :
    pc s = MScan i -> sys_nodes s !! i = Some n -> has_result_founded n = true ->
    main_step s (with_pc s (MScan (S i)))
| step_scan_break s i n :
    pc s = MScan i -> sys_nodes s !! i = Some n -> has_result_founded n = false ->
    main_step s (with_pc s (MWait false))
| step_scan_done s i :
    pc s = MScan i -> length (sys_nodes s) <= i ->
    main_step s (with_pc s (MWait true))
| step_report_start s :
    pc s = MPlot ->
    main_step s (with_pc s (MReport 0 (replicate (report_nodes s) []) plt_subplots))
| step_report_distances s j ds fig ds' fig' :
    pc s = MReport j ds fig -> j < report_nodes s ->
    report_distances (sys_sim s) (optimum_point (network_graph (sys_sim s))) j ds fig = Ok (ds', fig') ->
    main_step s (with_pc s (MReportXis j ds' fig'))
| step_report_distances_raise s j ds fig e :
    pc s = MReport j ds fig -> j < report_nodes s ->
    report_distances (sys_sim s) (optimum_point (network_graph (sys_sim s))) j ds fig = Err e ->
    main_step s (with_pc s (MRaised e))
| step_report_estimates s j ds fig fig' :
    pc s = MReportXis j ds fig -> report_estimates (sys_sim s) j fig = Ok fig' ->
    main_step s (with_pc s (MReport (S j) ds fig'))
| step_report_estimates_raise s j ds fig e :
    pc s = MReportXis j ds fig -> report_estimates (sys_sim s) j fig = Err e ->
    main_step s (with_pc s (MRaised e))
| step_report_done s j ds fig :
    pc s = MReport j ds fig -> report_nodes s <= j ->
    main_step s (mkSys (sys_sim s) MExit (clock s) (output s ++ report_finish fig)).

(** The process is alive until [sys.exit()] or an uncaught exception. *)
Definition alive (p : MainPc F) : bool :=
  match p with MExit | MRaised _ => false | _ => true end.

Variable run_step : Node F -> Node F -> Prop.

(** A started node thread takes a step of its [run()]. *)
Inductive thread_step : Sys F -> Sys F -> Prop :=
| step_thread s k n n' :
    alive (pc s) = true -> sys_nodes s !! k = Some n -> started n = true ->
    run_step n n' ->
    thread_step s (with_nodes s (<[k := n']> (sys_nodes s))).

Definition sys_step (s s' : Sys F) : Prop := main_step s s' \/ thread_step s s'.
End System.

(** ** Invariants *)
Section Invariants.
Context {F : Type} `{PyFloat F}.

(** Nodes [0 .. i-1] have latched. *)
Definition converged_below (i : nat) (ns : list (Node F)) : Prop :=
  forall k n, k < i -> ns !! k = Some n -> has_result_founded n = true.

(** What the supervisor knows at each point of its loop. *)
Definition supervisor_inv (s : Sys F) : Prop :=
  match pc s with
  | MScan i => converged_below i (sys_nodes s)
  | MWait true | MPlot | MReport _ _ _ | MReportXis _ _ _ =>
      converged_below (length (sys_nodes s)) (sys_nodes s)
  | _ => True
  end.

(** One node's state may only move forward: its history grows and its
    latch never reverts. *)
Definition node_le (n n' : Node F) : Prop :=
  all_calculated_xis n `prefix_of` all_calculated_xis n' /\
  (result_founded n = true -> result_founded n' = true).

Lemma converged_below_insert i ns k n n' :
  converged_below i ns -> ns !! k = Some n -> node_le n n' ->
  converged_below i (<[k := n']> ns).
Proof.
  intros Hc Hk [_ Hlatch] k' m Hk' Hm.
  destruct (decide (k = k')) as [<-|Hne].
  - rewrite list_lookup_insert_eq in Hm by (apply lookup_lt_is_Some; eauto).
    invc Hm. apply Hlatch, (Hc k); auto.
  - rewrite list_lookup_insert_ne in Hm by done. eauto.
Qed.

End Invariants.

Section Safety.
Context {F : Type} `{PyFloat F}.
Variable run_step : Node F -> Node F -> Prop.

(** What the spec asks of a node's [run()] (section 4.3). *)
Hypothesis run_step_le : forall n n', run_step n n' -> node_le n n'.

Lemma supervisor_inv_step s s' :
  supervisor_inv s -> sys_step run_step s s' -> supervisor_inv s'.
Proof.
  unfold supervisor_inv, sys_nodes. intros Hinv [Hm|Ht].
  - destruct Hm as [s i n n' Hpc|s i n e Hpc|s i Hpc|s Hpc|s Hpc|s i n Hpc Hn Hf
                   |s i n Hpc|s i Hpc Hlen|s Hpc|s j ds fig ds' fig' Hpc|s j ds fig e Hpc
                   |s j ds fig fig' Hpc|s j ds fig e Hpc|s j ds fig Hpc];
      simpl; rewrite ?Hpc in Hinv; try done; try exact Hinv.
    + intros k m Hk. lia.
    + intros k m Hk Hm. destruct (decide (k = i)) as [->|].
      * unfold sys_nodes in Hn. congruence.
      * apply (Hinv k); [lia|done].
    + intros k m Hk Hm. apply (Hinv k); [unfold sys_nodes in Hlen; lia|done].
  - destruct Ht as [s k n n' Halive Hn Hst Hrun]. unfold sys_nodes in Hn. simpl.
    destruct (pc s) as [|[|]|i| | | | |]; try done; rewrite ?length_insert;
      eapply converged_below_insert; eauto.
Qed.

Lemma supervisor_inv_reachable (sim : Simulation F) s :
  rtc (sys_step run_step) (init_sys sim) s -> supervisor_inv s.
Proof. intros Hr. eapply (rtc_preserved _ supervisor_inv); [apply supervisor_inv_step|exact Hr|done]. Qed.

Lemma sys_step_length s s' :
  sys_step run_step s s' -> length (sys_nodes s') = length (sys_nodes s).
Proof. intros [[]|[]]; unfold sys_nodes; simpl; rewrite ?length_insert; done. Qed.

Lemma sys_step_spec s s' :
  sys_step run_step s s' ->
  simulation_specification (sys_sim s') = simulation_specification (sys_sim s).
Proof. by intros [[]|[]]. Qed.

(** C1: in every execution, whatever the interleaving of the node threads
    with the main thread, the report of line 88 starts only when every
    node's latch is set: the scan reads the latches one at a time while
    the nodes run, and a latch once read set stays set. *)
Theorem plot_after_global_convergence (sim : Simulation F) s :
  rtc (sys_step run_step) (init_sys sim) s -> pc s = MPlot ->
  forall k n, sys_nodes s !! k = Some n -> has_result_founded n = true.
Proof.
  intros Hr Hpc k n Hk. pose proof (supervisor_inv_reachable sim s Hr) as Hinv.
  unfold supervisor_inv in Hinv. rewrite Hpc in Hinv.
  apply (Hinv k); [apply lookup_lt_is_Some; eauto|done].
Qed.

(** The main thread is in the polling loop's scan or past the loop. *)
Definition past_polling (p : MainPc F) : Prop :=
  match p with MStart _ | MWait false => False | _ => True end.

Lemma converged_step s s' :
  converged_below (length (sys_nodes s)) (sys_nodes s) /\ past_polling (pc s) ->
  sys_step run_step s s' ->
  converged_below (length (sys_nodes s')) (sys_nodes s') /\ past_polling (pc s').
Proof.
  intros [Hc Hp] [Hm|Ht].
  - destruct Hm as [s i n n' Hpc ? ?|s i n e Hpc ? ?|s i Hpc ?|s Hpc|s Hpc|s i n Hpc ? ?
                   |s i n Hpc Hn Hf|s i Hpc ?|s Hpc|s j ds fig ds' fig' Hpc ? ?|s j ds fig e Hpc ? ?
                   |s j ds fig fig' Hpc ?|s j ds fig e Hpc ?|s j ds fig Hpc ?];
      rewrite Hpc in Hp; simpl in Hp; try contradiction; try (split; [exact Hc|exact I]).
    exfalso. unfold sys_nodes in *. pose proof (lookup_lt_Some _ _ _ Hn).
    by rewrite (Hc i n) in Hf.
  - destruct Ht as [s k n n' Ha Hn Hst Hrun]. unfold sys_nodes in *. simpl.
    split; [|exact Hp]. rewrite length_insert. eapply converged_below_insert; eauto.
Qed.

(** C25: once every node has converged when a poll starts, the script
    never sleeps again, whatever the node threads do: that poll's scan
    cannot [break], so the polling loop ends with it and no later poll
    takes place. *)
Theorem converged_poll_exits (s s' : Sys F) :
  pc s = MScan 0 -> converged_below (length (sys_nodes s)) (sys_nodes s) ->
  rtc (sys_step run_step) s s' -> pc s' <> MWait false.
Proof.
  intros Hpc Hc Hr.
  destruct (rtc_preserved _ (fun s => converged_below (length (sys_nodes s)) (sys_nodes s) /\
                                   past_polling (pc s)) converged_step s s' Hr) as [_ Hp].
  - by rewrite Hpc.
  - intros He. by rewrite He in Hp.
Qed.
End Safety.

Section Exceptions.
Context {F : Type} `{PyFloat F}.
Variable run_step : Node F -> Node F -> Prop.

(** Nodes [i ..] have not been started. *)
Definition unstarted_from (i : nat) (ns : list (Node F)) : Prop :=
  forall k n, i <= k -> ns !! k = Some n -> started n = false.

(** No more nodes configured than built; during the report, [distances]
    has one series per configured node. *)
Definition exception_inv (s : Sys F) : Prop :=
  report_nodes s <= length (sys_nodes s) /\
  match pc s with
  | MStart i => unstarted_from i (sys_nodes s)
  | MReport _ ds _ => length ds = report_nodes s
  | MReportXis j ds _ => j < report_nodes s /\ length ds = report_nodes s
  | MRaised e => e = ValueError
  | _ => True
  end.

Lemma unstarted_from_insert i ns k n' :
  unstarted_from i ns -> k < i -> unstarted_from i (<[k := n']> ns).
Proof.
  intros Hu Hk k' m Hk' Hm. rewrite list_lookup_insert_ne in Hm by lia. eauto.
Qed.

Lemma exception_inv_step s s' :
  exception_inv s -> sys_step run_step s s' -> exception_inv s'.
Proof.
  unfold exception_inv, sys_nodes. intros [Hlen Hinv] [Hm|Ht].
  - destruct Hm as [s i n n' Hpc Hn Hst|s i n e Hpc Hn Hst|s i Hpc|s Hpc|s Hpc|s i n Hpc
                   |s i n Hpc|s i Hpc|s Hpc|s j ds fig ds' fig' Hpc Hj Hr|s j ds fig e Hpc Hj Hr
                   |s j ds fig fig' Hpc Hr|s j ds fig e Hpc Hr|s j ds fig Hpc];
      simpl; rewrite ?Hpc in Hinv; rewrite ?length_insert; split; try done.
    + intros k m Hk Hm. rewrite list_lookup_insert_ne in Hm by lia. apply (Hinv k); [lia|done].
    + unfold node_start in Hst. simpl in Hst. rewrite (Hinv i n) in Hst by done. discriminate.
    + by rewrite length_replicate.
    + split; [done|]. by rewrite (report_distances_length _ _ _ _ _ _ _ Hr).
    + eapply report_distances_Err; [|rewrite Hinv|exact Hr]; unfold report_nodes in *; lia.
    + by destruct Hinv.
    + apply report_estimates_Err in Hr as [_ Hr]. destruct Hinv. unfold report_nodes in *. lia.
  - destruct Ht as [s k n n' Halive Hn Hst Hrun]. simpl. rewrite length_insert. split; [done|].
    destruct (pc s) as [i| | | | | | |e]; try done.
    apply unstarted_from_insert; [done|].
    destruct (decide (k < i)); [done|]. rewrite (Hinv k n) in Hst by (done || lia). discriminate.
Qed.

Lemma exception_inv_reachable (sim : Simulation F) s :
  Forall node_fresh (nodes (network_graph sim)) ->
  Z.to_nat (number_of_nodes (simulation_specification sim)) <= length (nodes (network_graph sim)) ->
  rtc (sys_step run_step) (init_sys sim) s -> exception_inv s.
Proof.
  intros Hfresh Hlen Hr.
  eapply (rtc_preserved _ exception_inv); [apply exception_inv_step|exact Hr|].
  split; [done|]. intros k n _ Hk.
  rewrite Forall_lookup in Hfresh. by destruct (Hfresh k n Hk) as (_ & ? & _).
Qed.

(** C9: when the graph's nodes are fresh and the configuration asks for
    no more nodes than the graph has, no execution raises anything but
    numpy's [ValueError]: each thread is started once (no
    [RuntimeError]) and the report never indexes past the nodes (no
    [IndexError]). *)
Theorem only_numpy_raises (sim : Simulation F) s e :
  Forall node_fresh (nodes (network_graph sim)) ->
  Z.to_nat (number_of_nodes (simulation_specification sim)) <= length (nodes (network_graph sim)) ->
  rtc (sys_step run_step) (init_sys sim) s -> pc s = MRaised e -> e = ValueError.
Proof.
  intros Hfresh Hlen Hr Hpc.
  destruct (exception_inv_reachable sim s Hfresh Hlen Hr) as [_ Hinv]. by rewrite Hpc in Hinv.
Qed.
End Exceptions.

(** ** The report, step by step

    When no node thread runs during the report, its steps compute what
    [Reporter.generate_convergence_plot] computes. *)
Section ReportSteps.
Context {F : Type} `{PyFloat F}.

Lemma with_pc_same (s : Sys F) : with_pc s (pc s) = s.
Proof. by destruct s. Qed.

(** Nodes [k .. k+m-1] of the loop of lines 39-45, by the main thread
    alone. *)
Lemma report_loop_steps (s : Sys F) k m ds fig :
  pc s = MReport k ds fig -> k + m = report_nodes s ->
  match node_loop (sys_sim s) (optimum_point (network_graph (sys_sim s))) (seq k m) ds fig with
  | Ok (ds', fig') => rtc main_step s (with_pc s (MReport (k + m) ds' fig'))
  | Err e => rtc main_step s (with_pc s (MRaised e))
  end.
Proof.
  revert s k ds fig. induction m as [|m IH]; intros s k ds fig Hpc Hk.
  - simpl. rewrite Nat.add_0_r, <- Hpc, with_pc_same. apply rtc_refl.
  - change (seq k (S m)) with (k :: seq (S k) m). cbn [node_loop].
    destruct (report_distances _ _ k ds fig) as [[ds1 fig1]|e] eqn:Hd; simpl.
    2:{ apply rtc_once. eapply step_report_distances_raise; [done|lia|exact Hd]. }
    destruct (report_estimates _ k fig1) as [fig2|e] eqn:He; simpl.
    2:{ eapply rtc_l; [eapply step_report_distances; [done|lia|exact Hd]|].
        apply rtc_once. by eapply (step_report_estimates_raise (with_pc s (MReportXis k ds1 fig1))). }
    assert (Hk' : S k + m = report_nodes (with_pc s (MReport (S k) ds1 fig2)))
      by (unfold report_nodes in *; simpl; lia).
    specialize (IH (with_pc s (MReport (S k) ds1 fig2)) (S k) ds1 fig2 eq_refl Hk').
    cbn [sys_sim with_pc] in IH.
    destruct (node_loop _ _ _ _ _) as [[ds' fig']|e];
      (eapply rtc_l; [eapply step_report_distances; [done|lia|exact Hd]|]);
      (eapply rtc_l; [by eapply (step_report_estimates (with_pc s (MReportXis k ds1 fig1)))|]);
      rewrite ?Nat.add_succ_r; exact IH.
Qed.

(** Without interference from the node threads, the report of
    lines 36-57 run one half iteration at a time by the main thread
    computes [generate_convergence_plot]: it ends in [sys.exit()] with the
    figure saved and shown exactly when the function returns, and raises
    exactly the exception the function raises. *)
Theorem report_steps_generate (s : Sys F) :
  pc s = MPlot ->
  match generate_convergence_plot (sys_sim s) with
  | Ok (ds, evs) => rtc main_step s (mkSys (sys_sim s) MExit (clock s) (output s ++ evs))
  | Err e => rtc main_step s (with_pc s (MRaised e))
  end.
Proof.
  intros Hpc.
  pose proof (report_loop_steps (with_pc s (MReport 0 (replicate (report_nodes s) []) plt_subplots))
                0 (report_nodes s) _ _ eq_refl eq_refl) as Hl.
  cbn [sys_sim with_pc] in Hl. unfold generate_convergence_plot, report_nodes in *. cbv zeta.
  destruct (node_loop _ _ _ _ _) as [[ds fig]|e]; simpl;
    (eapply rtc_l; [by apply step_report_start|]); [|exact Hl].
  eapply rtc_r; [exact Hl|].
  set (n := Z.to_nat (number_of_nodes (simulation_specification (sys_sim s)))).
  apply (step_report_done (with_pc s (MReport n ds fig)) n ds fig); [done|apply Nat.le_refl].
Qed.
End ReportSteps.

(** The nodes of the spec satisfy the hypothesis of [Safety]. *)
Lemma node_run_step_le {F} `{PyFloat F} (n n' : Node F) : node_run_step n n' -> node_le n n'.
Proof.
  intros Hs. destruct (node_run_step_history n n' Hs) as [l Hl].
  split; [rewrite Hl; by exists l|]. by apply node_run_step_latch.
Qed.

