(* ===== verification/Refinement.v ===== *)
(** * The polling loop, two ways: [Supervisor.wait_loop] and [Concurrency.main_step]

    Supervisor.v models [wait_until_result_founded] (lines 59-68) as a
    function of a time-indexed view [world t] of the nodes; Concurrency.v
    models it statement by statement inside the interleaving of the
    script's threads.  This file shows that the step relation implements
    the function: a scan of the main thread, one [MScan] step per loop
    iteration, computes [Supervisor.scan_loop] ([scan_steps]); and every
    run of the functional loop that leaves the loop at time [t'] is an
    execution of the script that reaches the report at time [t'], after
    printing line 68, provided the node threads can turn the nodes of
    [world t] into those of [world (t + 5)] while the main thread sleeps
    ([wait_loop_refinement]). *)

From stdpp Require Import base list relations strings.
From Stdlib Require Import ZArith Lia PrimFloat.
From S2P Require Import Prelude NumPy SimulationSpecification NetworkGraph Supervisor Reporter Concurrency.

Section Refinement.
Context {F : Type} `{PyFloat F}.
Variable run_step : Node F -> Node F -> Prop.

(** The refinement relation: the nodes of state [s] are those the
    functional loop sees at the clock of [s]. *)
Definition world_matches (world : nat -> list (Node F)) (s : Sys F) : Prop :=
  sys_nodes s = world (clock s).

Lemma with_nodes_same (s : Sys F) : with_nodes s (sys_nodes s) = s.
Proof. by destruct s as [[spec []] p t out]. Qed.

Lemma main_sys_step (s s' : Sys F) : main_step s s' -> rtc (sys_step run_step) s s'.
Proof. intros Hm. apply rtc_once. by left. Qed.

Lemma thread_sys_steps (s s' : Sys F) :
  rtc (thread_step run_step) s s' -> rtc (sys_step run_step) s s'.
Proof. apply rtc_subrel. intros a b Hab. by right. Qed.

(** The [for] loop of lines 64-67 run by the main thread alone from index
    [k] ends at the loop head with the value of [is_all_dif_accepted] that
    [scan_loop] computes over [range(k, len(nodes))]. *)
Lemma scan_steps (s : Sys F) k b reads :
  pc s = MScan k -> k <= length (sys_nodes s) ->
  scan_loop (sys_nodes s) (seq k (length (sys_nodes s) - k)) = Ok (b, reads) ->
  rtc (sys_step run_step) s (with_pc s (MWait b)).
Proof.
  remember (length (sys_nodes s) - k) as m eqn:Hm. revert s k reads Hm.
  induction m as [|m IH]; intros s k reads Hm Hpc Hk Hscan; simpl in Hscan.
  - invc Hscan. apply main_sys_step, (step_scan_done s k); [done|lia].
  - destruct (py_index_lt (sys_nodes s) k) as (n & Hn & Hl); [lia|].
    rewrite Hn in Hscan. simpl in Hscan.
    destruct (has_result_founded n) eqn:Hf; simpl in Hscan.
    + destruct (scan_loop _ _) as [[b' r]|] eqn:Hrest; simpl in Hscan; [|discriminate]. invc Hscan.
      eapply rtc_trans; [apply main_sys_step, (step_scan_next s k n); done|].
      apply (IH (with_pc s (MScan (S k))) (S k) r); [..|exact Hrest]; unfold sys_nodes in *; simpl; [lia|done|lia].
    + invc Hscan. by apply main_sys_step, (step_scan_break s k n).
Qed.

Variable world : nat -> list (Node F).
(** While the main thread sleeps, the node threads can take the nodes of
    [world t] to those of [world (t + 5)]. *)
Hypothesis world_threads : forall (s : Sys F) t,
  sys_nodes s = world t -> alive (pc s) = true ->
  rtc (thread_step run_step) s (with_nodes s (world (t + poll_interval))).

(** The polling loop of Concurrency.v refines the one of
    Supervisor.v: when the functional loop, started at the loop head at
    time [t] on the nodes [world t], leaves the loop at time [t'], the
    script has an execution from that state which sleeps and scans as the
    function does, prints line 68 and reaches the report at time [t'] on
    the nodes [world t']. *)
Theorem wait_loop_refinement fuel (s : Sys F) t' :
  pc s = MWait false -> world_matches world s ->
  wait_loop world fuel (clock s) false = Some (Ok t') ->
  exists s', rtc (sys_step run_step) s s' /\ pc s' = MPlot /\ clock s' = t' /\
    world_matches world s' /\ output s' = output s ++ [result_founded_msg].
Proof.
  revert s. induction fuel as [|fuel IH]; intros s Hpc Hns Hw; [discriminate|].
  simpl in Hw. destruct (scan (world (clock s + poll_interval))) as [[b reads]|] eqn:Hscan;
    [|discriminate].
  set (s1 := mkSys (sys_sim s) (MScan 0) (clock s + poll_interval) (output s)).
  set (s2 := with_nodes s1 (world (clock s + poll_interval))).
  assert (Hr : rtc (sys_step run_step) s (with_pc s2 (MWait b))).
  { eapply rtc_l; [left; by apply step_sleep|].
    eapply rtc_trans; [apply thread_sys_steps, (world_threads s1 (clock s)); done|].
    apply (scan_steps s2 0 b reads); [done|lia|]. by rewrite Nat.sub_0_r. }
  destruct b.
  - rewrite wait_loop_true in Hw. invc Hw.
    exists (mkSys (sys_sim s2) MPlot (clock s2) (output s2 ++ [result_founded_msg])).
    split_and!; [|reflexivity..].
    eapply rtc_r; [exact Hr|]. left. by apply (step_wait_exit (with_pc s2 (MWait true))).
  - destruct (IH (with_pc s2 (MWait false))) as (s' & Hr' & Hpc' & Hc' & Hn' & Ho'); [done..|].
    exists s'. split_and!; [by eapply rtc_trans|done..].
Qed.
End Refinement.

(** A node that has not converged at the poll of time 5 and converges
    before the poll of time 10. *)
Definition late_world (t : nat) : list (Node float) := [mkNode [] (10 <=? t) true true].

Lemma late_world_threads (s : Sys float) t :
  sys_nodes s = late_world t -> alive (pc s) = true ->
  rtc (thread_step node_run_step) s (with_nodes s (late_world (t + poll_interval))).
Proof.
  intros Hs Ha. unfold poll_interval.
  destruct (Nat.leb_spec 10 t) as [Ht|Ht]; [|destruct (Nat.leb_spec 10 (t + 5)) as [Ht5|Ht5]].
  - assert (Hw : late_world (t + 5) = late_world t).
    { unfold late_world. by rewrite !(proj2 (Nat.leb_le _ _)) by lia. }
    rewrite Hw, <- Hs, with_nodes_same. apply rtc_refl.
  - assert (Hn : late_world t = [mkNode [] false true true]).
    { unfold late_world. by rewrite (proj2 (Nat.leb_gt 10 t)) by lia. }
    assert (Hw : late_world (t + 5) = <[0 := node_latch (mkNode [] false true true)]> (sys_nodes s)).
    { rewrite Hs, Hn. unfold late_world. by rewrite (proj2 (Nat.leb_le 10 _)) by lia. }
    rewrite Hw. apply rtc_once. apply (step_thread _ _ 0 (mkNode [] false true true)); [done|by rewrite Hs, Hn|done|].
    by apply run_converge.
  - assert (Hw : late_world (t + 5) = late_world t).
    { unfold late_world. by rewrite !(proj2 (Nat.leb_gt _ _)) by lia. }
    rewrite Hw, <- Hs, with_nodes_same. apply rtc_refl.
Qed.

Definition late_state : Sys float :=
  mkSys (mkSimulation (mkSpec 1 (Arr1 [0%float]) 1%float 1%float 0%float) (mkGraph (late_world 0) (Arr1 [0%float])))
    (MWait false) 0 [].

Lemma wait_loop_refinement_witness :
  exists s', rtc (sys_step node_run_step) late_state s' /\ pc s' = MPlot /\ clock s' = 10 /\
    world_matches late_world s' /\ output s' = output late_state ++ [result_founded_msg].
Proof.
  apply (wait_loop_refinement node_run_step late_world late_world_threads 2 late_state 10);
    reflexivity.
Defined.
