(* ===== verification/Trace.v ===== *)
(** * The observable behaviour of the script: its I/O trace

    The script talks to the outside world four times: it draws the graph
    (line 77), prints [Result founded: ] when the polling loop ends
    (line 68), saves the figure to [books_read.png] (line 56) and shows it
    (line 57).  [script_trace] is that sequence.  Whatever the
    interleaving of the node threads, the output of every reachable state
    is a prefix of it, and the whole of it once [sys.exit()] is reached
    ([script_io_trace]): the line is printed once, after the last poll,
    and the figure is saved before it is shown. *)

From stdpp Require Import base list relations strings.
From Stdlib Require Import ZArith Lia PrimFloat.
From S2P Require Import Prelude NumPy SimulationSpecification NetworkGraph Supervisor Reporter Concurrency.

Section Trace.
Context {F : Type} `{PyFloat F}.

(** The I/O of a run that ends normally, for the graph [g] drawn and the
    figure [fig] plotted. *)
Definition script_trace (g : NetworkGraph F) (fig : Figure F) : list (IOEvent F) :=
  [DrawGraph g; result_founded_msg; SaveFig "books_read.png" fig; ShowFig fig].

(** The output so far, by control point of the main thread. *)
Definition io_inv (g : NetworkGraph F) (s : Sys F) : Prop :=
  match pc s with
  | MStart _ | MWait _ | MScan _ => output s = [DrawGraph g]
  | MPlot | MReport _ _ _ | MReportXis _ _ _ => output s = [DrawGraph g; result_founded_msg]
  | MExit => exists fig, output s = script_trace g fig
  | MRaised _ => output s = [DrawGraph g] \/ output s = [DrawGraph g; result_founded_msg]
  end.

Variable run_step : Node F -> Node F -> Prop.

Lemma io_inv_step g s s' : io_inv g s -> sys_step run_step s s' -> io_inv g s'.
Proof.
  unfold io_inv. intros Hinv [Hm|Ht].
  - destruct Hm as [s i n n' Hp|s i n e Hp|s i Hp|s Hp|s Hp|s i n Hp|s i n Hp|s i Hp
                   |s Hp|s j ds fig ds' fig' Hp|s j ds fig e Hp|s j ds fig fig' Hp|s j ds fig e Hp
                   |s j ds fig Hp]; simpl; rewrite Hp in Hinv; try by auto.
    + by rewrite Hinv.
    + exists (finish_figure fig). by rewrite Hinv.
  - destruct Ht. simpl. by destruct (pc s).
Qed.

(** C20: the script's output is, in this order, the drawing of the graph,
    the line [Result founded: ], the saved figure and the shown figure:
    every reachable state has output a prefix of that trace, and a run
    that reaches [sys.exit()] has output all of it. *)
Theorem script_io_trace (sim : Simulation F) s :
  rtc (sys_step run_step) (init_sys sim) s ->
  exists fig, output s `prefix_of` script_trace (network_graph sim) fig /\
    (pc s = MExit -> output s = script_trace (network_graph sim) fig).
Proof.
  intros Hr. assert (Hinv : io_inv (network_graph sim) s).
  { eapply (rtc_preserved _ (io_inv (network_graph sim))); [|exact Hr|done].
    intros a b Hab. by apply io_inv_step. }
  unfold io_inv in Hinv. unfold script_trace.
  destruct (pc s); try (rewrite Hinv; exists (plt_subplots (F:=F)); split; [by eexists|done]).
  - destruct Hinv as [fig ->]. by exists fig.
  - exists plt_subplots. split; [|done].
    destruct Hinv as [->| ->]; by eexists.
Qed.
End Trace.
