(* ===== verification/ReportConsistency.v ===== *)
(** * What the report reads while the node threads run

    In Concurrency.v the report runs one half iteration of its node loop
    at a time (lines 40-44, then line 45) and the daemon node threads may
    append estimates in between, so the two panels need not agree
    (Executions.report_panels_misaligned).  This file states what does
    hold in every interleaving ([report_read]): for each node [k], the
    left panel plots the distances of a prefix of the estimates that the
    right panel plots, which are a prefix of node [k]'s history at the end
    of the run.  The invariant [report_inv] follows the report's locals
    [distances] and [fig] through [MReport] and [MReportXis] to
    [sys.exit()]. *)

From stdpp Require Import base list relations strings.
From Stdlib Require Import ZArith Lia PrimFloat.
From S2P Require Import Prelude NumPy SimulationSpecification NetworkGraph Supervisor Reporter Concurrency.

Section ReportConsistency.
Context {F : Type} `{PyFloat F}.

(** The curves of node [k] on the two panels were read from node [k] of
    [ns]: the right panel shows a prefix [ys] of its history, the left
    panel the distances of a prefix [xs] of [ys]. *)
Definition report_read (x0 : ndarray F) (ns : list (Node F)) (k : nat) (c0 c1 : Curve F) : Prop :=
  exists n ys, ns !! k = Some n /\ ys `prefix_of` all_calculated_xis n /\ c1 = estimate_curve k ys /\
  exists xs ds, xs `prefix_of` ys /\ distance_series x0 xs = Ok ds /\ c0 = distance_curve k ds.

(** The left-panel curve of node [k], plotted, its right-panel curve not
    yet. *)
Definition half_read (x0 : ndarray F) (ns : list (Node F)) (k : nat) (c0 : Curve F) : Prop :=
  exists n xs ds, ns !! k = Some n /\ xs `prefix_of` all_calculated_xis n /\
    distance_series x0 xs = Ok ds /\ c0 = distance_curve k ds.

(** Nodes [0 .. j-1] are on both panels of [fig], read from [ns]. *)
Definition panels_read (x0 : ndarray F) (ns : list (Node F)) (j : nat) (fig : Figure F) : Prop :=
  length (curves (axs1 fig)) = j /\
  forall k c0 c1, k < j -> curves (axs0 fig) !! k = Some c0 -> curves (axs1 fig) !! k = Some c1 ->
    report_read x0 ns k c0 c1.

(** The series of nodes [j ..] are still empty. *)
Definition pending_empty (j n : nat) (ds : list (list F)) : Prop :=
  forall k, j <= k < n -> ds !! k = Some [].

Definition report_inv (s : Sys F) : Prop :=
  let x0 := optimum_point (network_graph (sys_sim s)) in
  match pc s with
  | MReport j ds fig =>
      j <= report_nodes s /\ length (curves (axs0 fig)) = j /\
      panels_read x0 (sys_nodes s) j fig /\ pending_empty j (report_nodes s) ds
  | MReportXis j ds fig =>
      j < report_nodes s /\ length (curves (axs0 fig)) = S j /\
      panels_read x0 (sys_nodes s) j fig /\ pending_empty (S j) (report_nodes s) ds /\
      exists c0, curves (axs0 fig) !! j = Some c0 /\ half_read x0 (sys_nodes s) j c0
  | MExit =>
      exists pre fig, output s = pre ++ report_finish fig /\
        length (curves (axs0 fig)) = report_nodes s /\
        panels_read x0 (sys_nodes s) (report_nodes s) fig
  | _ => True
  end.

Lemma node_le_lookup_insert (ns : list (Node F)) k' n n' k m :
  ns !! k' = Some n -> node_le n n' -> ns !! k = Some m ->
  exists m', <[k' := n']> ns !! k = Some m' /\ all_calculated_xis m `prefix_of` all_calculated_xis m'.
Proof.
  intros Hn [Hp _] Hm. destruct (decide (k = k')) as [->|Hne].
  - rewrite Hn in Hm. invc Hm. exists n'.
    by rewrite list_lookup_insert_eq by (apply lookup_lt_is_Some; eauto).
  - exists m. by rewrite list_lookup_insert_ne by done.
Qed.

Section Grow.
Variables (x0 : ndarray F) (ns : list (Node F)) (k' : nat) (n n' : Node F).
Hypothesis (Hn : ns !! k' = Some n) (Hle : node_le n n').

Lemma report_read_insert k c0 c1 :
  report_read x0 ns k c0 c1 -> report_read x0 (<[k' := n']> ns) k c0 c1.
Proof.
  intros (m & ys & Hm & Hys & Hc1 & Hrest).
  destruct (node_le_lookup_insert ns k' n n' k m) as (m' & Hm' & Hp); [done..|].
  exists m', ys. split_and!; [done|by etrans|done|done].
Qed.

Lemma half_read_insert k c0 :
  half_read x0 ns k c0 -> half_read x0 (<[k' := n']> ns) k c0.
Proof.
  intros (m & xs & ds & Hm & Hxs & Hds & Hc0).
  destruct (node_le_lookup_insert ns k' n n' k m) as (m' & Hm' & Hp); [done..|].
  exists m', xs, ds. split_and!; [done|by etrans|done|done].
Qed.

Lemma panels_read_insert j fig :
  panels_read x0 ns j fig -> panels_read x0 (<[k' := n']> ns) j fig.
Proof. intros [Hl Hr]. split; [done|]. intros k c0 c1 Hk H0 H1. apply report_read_insert; auto. Qed.
End Grow.

(** Line 44 adds a curve to the left panel only. *)
Lemma panels_read_plot_axs0 x0 ns j fig c :
  length (curves (axs0 fig)) = j -> panels_read x0 ns j fig -> panels_read x0 ns j (plot_axs0 c fig).
Proof.
  intros Hl [Hl1 Hr]. split; [done|]. intros k c0 c1 Hk H0 H1. apply Hr; [done| |done].
  simpl in H0. by rewrite lookup_app_l in H0 by lia.
Qed.

(** Line 45 completes node [j]: its right-panel curve is its history now. *)
Lemma panels_read_plot_axs1 x0 ns j fig c0 nj :
  panels_read x0 ns j fig -> curves (axs0 fig) !! j = Some c0 -> half_read x0 ns j c0 ->
  ns !! j = Some nj ->
  panels_read x0 ns (S j) (plot_axs1 (estimate_curve j (all_calculated_xis nj)) fig).
Proof.
  intros [Hl Hr] Hc0 Hh Hnj. split; [simpl; rewrite length_app; simpl; lia|].
  intros k d0 d1 Hk Hd0 Hd1. simpl in Hd0, Hd1. destruct (decide (k = j)) as [->|Hne].
  - rewrite lookup_app_r, Hl, Nat.sub_diag in Hd1 by lia. simpl in Hd1. invc Hd1.
    rewrite Hc0 in Hd0. invc Hd0.
    destruct Hh as (m & xs & ds & Hm & Hxs & Hds & ->). rewrite Hnj in Hm. invc Hm.
    exists m, (all_calculated_xis m). split_and!; [done|done|done|]. by exists xs, ds.
  - rewrite lookup_app_l in Hd1 by lia. apply Hr; [lia|done|done].
Qed.
End ReportConsistency.

Section ReportConsistencyTheorems.
Context {F : Type} `{PyFloat F}.
Variable run_step : Node F -> Node F -> Prop.
Hypothesis run_step_le : forall n n', run_step n n' -> node_le n n'.

Lemma report_inv_step (s s' : Sys F) : report_inv s -> sys_step run_step s s' -> report_inv s'.
Proof.
  unfold report_inv, report_nodes, sys_nodes. intros Hinv [Hm|Ht].
  - destruct Hm as [s i n n' Hp|s i n e Hp|s i Hp|s Hp|s Hp|s i n Hp|s i n Hp|s i Hp
                   |s Hp|s j ds fig ds' fig' Hp Hj Hr|s j ds fig e Hp|s j ds fig fig' Hp Hr
                   |s j ds fig e Hp|s j ds fig Hp Hn];
      simpl; rewrite ?Hp in Hinv; try done; unfold report_nodes, sys_nodes in *.
    + split_and!; [lia|done|split; [done|intros; lia]|].
      intros k Hk. apply lookup_replicate_2. lia.
    + destruct Hinv as (Hjn & Hl & Hpr & Hpe).
      apply report_distances_Ok_inv in Hr as (nj & dsj & Hnj & Hs & -> & ->); [|apply Hpe; lia].
      split_and!; [done|simpl; rewrite length_app; simpl; lia|by apply panels_read_plot_axs0| |].
      * intros k Hk. rewrite list_lookup_insert_ne by lia. apply Hpe. lia.
      * exists (distance_curve j dsj). split.
        -- simpl. by rewrite lookup_app_r, Hl, Nat.sub_diag by lia.
        -- by exists nj, (all_calculated_xis nj), dsj.
    + destruct Hinv as (Hjn & Hl & Hpr & Hpe & c0 & Hc0 & Hh).
      apply report_estimates_Ok_inv in Hr as (nj & Hnj & ->).
      split_and!; [lia|done|by eapply panels_read_plot_axs1|done].
    + destruct Hinv as (Hjn & Hl & Hpr & Hpe). exists (output s), fig.
      split_and!; [done|lia|]. by replace (Z.to_nat _) with j by lia.
  - destruct Ht as [s k n n' Halive Hn Hst Hrun]. simpl. unfold sys_nodes in Hn.
    destruct (pc s) as [| | | |j ds fig|j ds fig| |]; try done.
    + destruct Hinv as (Hjn & Hl & Hpr & Hpe). split_and!; try done.
      eapply panels_read_insert; eauto.
    + destruct Hinv as (Hjn & Hl & Hpr & Hpe & c0 & Hc0 & Hh). split_and!; try done.
      * eapply panels_read_insert; eauto.
      * exists c0. split; [done|]. eapply half_read_insert; eauto.
Qed.

(** C22: whatever the node threads do during the report, the figure
    saved and shown at [sys.exit()] holds one curve per configured node on
    each panel, and for each node the right panel shows a prefix of its
    final history and the left panel the distances of a prefix of those
    estimates: the panels may lag behind the nodes and the left behind the
    right, but never show estimates a node did not produce. *)
Theorem report_reads_prefixes (sim : Simulation F) s :
  rtc (sys_step run_step) (init_sys sim) s -> pc s = MExit ->
  exists pre fig, output s = pre ++ [SaveFig "books_read.png" fig; ShowFig fig] /\
    length (curves (axs0 fig)) = report_nodes s /\ length (curves (axs1 fig)) = report_nodes s /\
    forall k c0 c1, curves (axs0 fig) !! k = Some c0 -> curves (axs1 fig) !! k = Some c1 ->
      report_read (optimum_point (network_graph (sys_sim s))) (sys_nodes s) k c0 c1.
Proof.
  intros Hr Hpc.
  assert (Hinv : report_inv s).
  { eapply (rtc_preserved _ report_inv); [|exact Hr|done]. intros a b. by apply report_inv_step. }
  unfold report_inv in Hinv. rewrite Hpc in Hinv.
  destruct Hinv as (pre & fig & Hout & Hl & Hl1 & Hread).
  exists pre, (finish_figure fig). split_and!; [exact Hout|done|done|].
  intros k c0 c1 H0 H1. apply (Hread k c0 c1); [|done|done].
  apply lookup_lt_Some in H0. simpl in H0. lia.
Qed.
End ReportConsistencyTheorems.
