(* ===== verification/Executions.v ===== *)
(** * Executions of the script

    Concrete runs of the transition system of Concurrency.v with one node:
    a run that reaches the report ([reach_race_plot]), the report racing
    with the node thread it reads ([report_panels_misaligned]), a run that
    raises numpy's [ValueError] ([reach_raise]), and, with two nodes whose
    latch may revert, a run that reaches the report although no state of
    it has all nodes latched ([scan_not_snapshot]). *)

From stdpp Require Import base list relations strings.
From Stdlib Require Import ZArith Lia PrimFloat.
From S2P Require Import Prelude NumPy SimulationSpecification NetworkGraph Supervisor Reporter Concurrency Trace ReportConsistency.

(** One step of the main thread, of constructor [c], at the head of an
    execution. *)
Ltac main_step_tac c := eapply rtc_l; [left; eapply c; reflexivity|].

(** The report of a one-node run, with no node step in between: lines
    36-38, 40-44 and 45 for node 0, then lines 46-57. *)
Ltac report_one_node_tac :=
  main_step_tac step_report_start;
  eapply rtc_l; [left; eapply step_report_distances;
                 [reflexivity|vm_compute; lia|vm_compute; reflexivity]|];
  eapply rtc_l; [left; eapply step_report_estimates; [reflexivity|vm_compute; reflexivity]|];
  eapply rtc_l; [left; eapply step_report_done; [reflexivity|vm_compute; lia]|].

(** ** Executions of a one-node run *)
Section Executions.
Local Open Scope float_scope.

Definition race_sim : Simulation float :=
  mkSimulation (mkSpec 1 (Arr1 [0]) 1 1 0) (mkGraph [fresh_node] (Arr1 [0])).

(** The state in which the report starts: node 0 started and latched, one
    poll done. *)
Definition race_plot_state : Sys float :=
  mkSys (mkSimulation (mkSpec 1 (Arr1 [0]) 1 1 0) (mkGraph [mkNode [] true true true] (Arr1 [0])))
    MPlot 5 [DrawGraph (mkGraph [fresh_node] (Arr1 [0])); PrintLine "Result founded: "%string].

(** Start node 0, leave the start loop, node 0 latches, sleep, scan. *)
Lemma reach_race_plot : rtc (sys_step node_run_step) (init_sys race_sim) race_plot_state.
Proof.
  main_step_tac step_start. main_step_tac step_start_done.
  eapply rtc_l; [right; eapply (step_thread _ _ 0); [reflexivity|reflexivity|reflexivity|];
                 apply run_converge; reflexivity|].
  main_step_tac step_sleep. main_step_tac step_scan_next.
  eapply rtc_l; [left; eapply step_scan_done; [reflexivity|simpl; lia]|].
  main_step_tac step_wait_exit. apply rtc_refl.
Qed.

Lemma plot_after_global_convergence_witness :
  has_result_founded (mkNode (F:=float) [] true true true) = true.
Proof.
  apply (plot_after_global_convergence node_run_step node_run_step_le race_sim race_plot_state
           reach_race_plot eq_refl 0); reflexivity.
Defined.

Lemma report_steps_generate_witness :
  match generate_convergence_plot (sys_sim race_plot_state) with
  | Ok (ds, evs) =>
      rtc main_step race_plot_state
        (mkSys (sys_sim race_plot_state) MExit (clock race_plot_state) (output race_plot_state ++ evs))
  | Err e => rtc main_step race_plot_state (with_pc race_plot_state (MRaised e))
  end.
Proof. apply report_steps_generate. reflexivity. Defined.

(** C21: the two panels of the figure can disagree: the report plots
    node 0's distances (line 44) from a history without estimates, the
    node thread then appends the estimate [[1.]], and line 45 plots that
    longer history, so the saved and shown figure has no distance for node
    0 but one estimate.  (The spec asks for two aligned views.) *)
Theorem report_panels_misaligned :
  exists s fig, rtc (sys_step node_run_step) (init_sys race_sim) s /\ pc s = MExit /\
    output s = [DrawGraph (network_graph race_sim); result_founded_msg;
                SaveFig "books_read.png"%string fig; ShowFig fig] /\
    curves (axs0 fig) = [distance_curve 0 []] /\
    curves (axs1 fig) = [estimate_curve 0 [Arr1 [1]]].
Proof.
  eexists _, _. split.
  - eapply rtc_trans; [apply reach_race_plot|].
    main_step_tac step_report_start.
    eapply rtc_l; [left; eapply step_report_distances;
                   [reflexivity|vm_compute; lia|vm_compute; reflexivity]|].
    eapply rtc_l; [right; eapply (step_thread _ _ 0); [reflexivity|reflexivity|reflexivity|];
                   apply (run_estimate _ (Arr1 [1])); reflexivity|].
    eapply rtc_l; [left; eapply step_report_estimates; [reflexivity|vm_compute; reflexivity]|].
    eapply rtc_l; [left; eapply step_report_done; [reflexivity|vm_compute; lia]|].
    apply rtc_refl.
  - split_and!; reflexivity.
Qed.

(** A run whose only node produces an estimate of dimension 3 around an
    optimum of dimension 2. *)
Definition raise_sim : Simulation float :=
  mkSimulation (mkSpec 1 (Arr1 [0; 0]) 1 1 0) (mkGraph [fresh_node] (Arr1 [0; 0])).

Definition raise_state : Sys float :=
  mkSys (mkSimulation (mkSpec 1 (Arr1 [0; 0]) 1 1 0)
           (mkGraph [mkNode [Arr1 [1; 2; 3]] true true true] (Arr1 [0; 0])))
    (MRaised ValueError) 5 [DrawGraph (mkGraph [fresh_node] (Arr1 [0; 0])); PrintLine "Result founded: "%string].

Lemma reach_raise : rtc (sys_step node_run_step) (init_sys raise_sim) raise_state.
Proof.
  main_step_tac step_start. main_step_tac step_start_done.
  eapply rtc_l; [right; eapply (step_thread _ _ 0); [reflexivity|reflexivity|reflexivity|];
                 apply (run_estimate _ (Arr1 [1; 2; 3])); reflexivity|].
  eapply rtc_l; [right; eapply (step_thread _ _ 0); [reflexivity|reflexivity|reflexivity|];
                 apply run_converge; reflexivity|].
  main_step_tac step_sleep. main_step_tac step_scan_next.
  eapply rtc_l; [left; eapply step_scan_done; [reflexivity|simpl; lia]|].
  main_step_tac step_wait_exit.
  main_step_tac step_report_start.
  eapply rtc_l; [left; eapply step_report_distances_raise;
                 [reflexivity|vm_compute; lia|vm_compute; reflexivity]|].
  apply rtc_refl.
Qed.

Lemma only_numpy_raises_witness : pc raise_state = MRaised ValueError /\ ValueError = ValueError.
Proof.
  split; [reflexivity|].
  apply (only_numpy_raises node_run_step raise_sim raise_state ValueError).
  - apply Forall_singleton. repeat split.
  - vm_compute. lia.
  - apply reach_raise.
  - reflexivity.
Defined.

(** A node whose latch may revert, which the spec forbids. *)
Inductive flaky_step : Node float -> Node float -> Prop :=
| flaky_latch n : flaky_step n (node_latch n)
| flaky_unlatch n :
    flaky_step n (mkNode (all_calculated_xis n) false (daemon n) (started n)).

(** Every node of [ns] has latched. *)
Definition all_latched (ns : list (Node float)) : Prop := converged_below (length ns) ns.

Lemma not_all_latched ns k n :
  ns !! k = Some n -> has_result_founded n = false -> not (all_latched ns).
Proof. intros Hk Hn Hall. rewrite (Hall k n) in Hn by eauto using lookup_lt_Some. discriminate. Qed.

(** A step of the system after which some node has not latched. *)
Definition step_unlatched (s s' : Sys float) : Prop :=
  sys_step flaky_step s s' /\ not (all_latched (sys_nodes s')).

(** A step of [step_unlatched] at the head of an execution, taken by the
    main thread ([left]) or node [i] ([right]), node [k] unlatched after
    it. *)
Ltac unlatched_tac step k :=
  eapply rtc_l; [split; [step|eapply (not_all_latched _ k); reflexivity]|].
Ltac main_unlatched c k := unlatched_tac ltac:(left; eapply c; reflexivity) k.
Ltac node_unlatched i r k :=
  unlatched_tac ltac:(right; eapply (step_thread _ _ i); [reflexivity|reflexivity|reflexivity|apply r]) k.

Definition pair_sim : Simulation float :=
  mkSimulation (mkSpec 2 (Arr1 [0]) 1 1 0) (mkGraph [fresh_node; fresh_node] (Arr1 [0])).

(** C12: the scan of lines 64-67 is not a snapshot: with nodes whose
    latch can revert, the script can leave the polling loop and start the
    report although at no instant of the run have all nodes latched
    together: node 0 latches, the scan reads it, node 0 reverts, node 1
    latches, the scan reads node 1.  So [plot_after_global_convergence]
    rests on the latch never reverting, not on the scan. *)
Theorem scan_not_snapshot :
  not (all_latched (sys_nodes (init_sys pair_sim))) /\
  exists s, rtc step_unlatched (init_sys pair_sim) s /\ pc s = MPlot.
Proof.
  split; [by eapply (not_all_latched _ 0)|]. eexists. split.
  2: shelve.
  main_unlatched step_start 0%nat. main_unlatched step_start 0%nat.
  main_unlatched step_start_done 0%nat.
  node_unlatched 0%nat flaky_latch 1%nat.
  main_unlatched step_sleep 1%nat. main_unlatched step_scan_next 1%nat.
  node_unlatched 0%nat flaky_unlatch 0%nat.
  node_unlatched 1%nat flaky_latch 0%nat.
  main_unlatched step_scan_next 0%nat.
  unlatched_tac ltac:(left; eapply step_scan_done; [reflexivity|simpl; lia]) 0%nat.
  main_unlatched step_wait_exit 0%nat. apply rtc_refl.
  Unshelve. reflexivity.
Qed.

(** A poll that starts with node 0 latched. *)
Definition converged_scan_state : Sys float :=
  mkSys (mkSimulation (mkSpec 1 (Arr1 [0]) 1 1 0) (mkGraph [mkNode [] true true true] (Arr1 [0])))
    (MScan 0) 5 [].

Lemma converged_poll_exits_witness :
  pc (with_pc converged_scan_state (MWait true)) <> MWait false.
Proof.
  apply (converged_poll_exits node_run_step node_run_step_le converged_scan_state); [reflexivity| |].
  - intros k n Hk Hn. destruct k as [|k]; [|simpl in Hk; lia]. by invc Hn.
  - main_step_tac step_scan_next.
    eapply rtc_l; [left; eapply step_scan_done; [reflexivity|simpl; lia]|]. apply rtc_refl.
Defined.
End Executions.

(** The one-node run, to its end, with no node step during the report. *)
Lemma reach_race_exit :
  exists s, rtc (sys_step node_run_step) (init_sys race_sim) s /\ pc s = MExit.
Proof.
  eexists. split.
  - eapply rtc_trans; [apply reach_race_plot|]. report_one_node_tac. apply rtc_refl.
  - reflexivity.
Qed.

Lemma script_io_trace_witness :
  exists s, rtc (sys_step node_run_step) (init_sys race_sim) s /\ pc s = MExit /\
  exists fig, output s `prefix_of` script_trace (network_graph race_sim) fig /\
    (pc s = MExit -> output s = script_trace (network_graph race_sim) fig).
Proof.
  destruct reach_race_exit as (s & Hr & Hpc). exists s. split_and!; [exact Hr|exact Hpc|].
  apply (script_io_trace node_run_step race_sim s Hr).
Defined.

Lemma report_reads_prefixes_witness :
  exists s, rtc (sys_step node_run_step) (init_sys race_sim) s /\ pc s = MExit /\
  exists pre fig, output s = pre ++ [SaveFig "books_read.png"%string fig; ShowFig fig] /\
    length (curves (axs0 fig)) = report_nodes s /\ length (curves (axs1 fig)) = report_nodes s /\
    forall k c0 c1, curves (axs0 fig) !! k = Some c0 -> curves (axs1 fig) !! k = Some c1 ->
      report_read (optimum_point (network_graph (sys_sim s))) (sys_nodes s) k c0 c1.
Proof.
  destruct reach_race_exit as (s & Hr & Hpc). exists s. split_and!; [exact Hr|exact Hpc|].
  apply (report_reads_prefixes node_run_step node_run_step_le race_sim s Hr Hpc).
Defined.
