(* ===== verification/Main.v ===== *)
(** * The script: src/Simulation.py, lines 71-91

    [setup] is lines 72-76: create the [Simulation], read its
    specification, build the network graph.  [generate_network_graph] is
    the method of lines 28-31.  Its result is the state
    [Concurrency.init_sys], which records the drawing of line 77 and in
    which the start loop of lines 80-82 begins.  The rest of the script is
    [Concurrency.sys_step].  The graph is built through the
    [NetworkGraphBuilder] interface: the theorems hold for every builder
    satisfying [NetworkGraphLaws], and every node implementation
    satisfying the latch and history contract of the spec. *)

From stdpp Require Import base list relations.
From Stdlib Require Import ZArith Lia PrimFloat.
From S2P Require Import Prelude NumPy SimulationSpecification NetworkGraph Supervisor Reporter Concurrency.

Section Main.
Context {F : Type} `{PyFloat F} `{NetworkGraphBuilder F}.

(** [Simulation.generate_network_graph] (lines 28-31): builds the graph
    from the specification passed (the script passes the object's own) and
    stores it in [self.network_graph]. *)
Definition generate_network_graph (simulation_specification : SimulationSpecification F)
    : result (Simulation F) :=
  g <- build_network_graph simulation_specification ;;
  Ok (mkSimulation simulation_specification g).

(** Lines 72-76. *)
Definition setup (inp : SpecInput F) : result (Sys F) :=
  spec <- set_simulation_specification inp ;;
  sim <- generate_network_graph spec ;;
  Ok (init_sys sim).
End Main.

Section MainTheorems.
Context {F : Type} `{PyFloat F}.

(** C13 (Scenario C): a node count below 1 raises [InvalidConfiguration]
    before the network graph is built: the result is the same whatever
    the graph builder does. *)
Theorem setup_invalid_node_count (inp : SpecInput F) (B : NetworkGraphBuilder F) :
  (in_number_of_nodes inp < 1)%Z -> @setup F _ B inp = Err InvalidConfiguration.
Proof.
  intros Hn. unfold setup, generate_network_graph, set_simulation_specification, set_number_of_nodes.
  by rewrite (proj2 (Z.ltb_lt _ _) Hn).
Qed.

Context `{B : NetworkGraphBuilder F} `{!NetworkGraphLaws F}.

Lemma setup_Ok (inp : SpecInput F) s0 :
  setup inp = Ok s0 -> exists spec g,
    valid_spec spec /\ build_network_graph spec = Ok g /\
    s0 = init_sys (mkSimulation spec g).
Proof.
  unfold setup, generate_network_graph, set_simulation_specification, set_number_of_nodes, set_min_accepted_divergence.
  destruct (Z.ltb_spec (in_number_of_nodes inp) 1); simpl; [discriminate|].
  destruct (fltb _ _) eqn:Hd; simpl; [discriminate|].
  destruct (build_network_graph _) as [g|] eqn:Hg; simpl; [|discriminate].
  intros He. invc He. do 2 eexists. split_and!; [|exact Hg|reflexivity].
  split; simpl; [lia|done].
Qed.

Variable run_step : Node F -> Node F -> Prop.
Hypothesis run_step_le : forall n n', run_step n n' -> node_le n n'.

(** C2: for every execution of the script from a successful setup: the
    graph keeps one node per configured node; the report starts only
    once every node has latched; and the only exception raised is
    numpy's [ValueError]. *)
Theorem script_correct (inp : SpecInput F) s0 s :
  setup inp = Ok s0 -> rtc (sys_step run_step) s0 s ->
  length (sys_nodes s) = Z.to_nat (number_of_nodes (simulation_specification (sys_sim s))) /\
  (pc s = MPlot -> forall k n, sys_nodes s !! k = Some n -> has_result_founded n = true) /\
  (forall e, pc s = MRaised e -> e = ValueError).
Proof.
  intros Hsetup Hr. apply setup_Ok in Hsetup as (spec & g & Hvalid & Hg & ->).
  pose proof (build_nodes_length spec g Hvalid Hg) as Hlen.
  assert (Hspec : simulation_specification (sys_sim s) = spec /\ length (sys_nodes s) = length (nodes g)).
  { apply (rtc_preserved (sys_step run_step)
             (fun s => simulation_specification (sys_sim s) = spec /\ length (sys_nodes s) = length (nodes g)))
      with (s := init_sys (mkSimulation spec g)); [|exact Hr|done].
    intros a b [Ha Hl] Hab. by rewrite (sys_step_spec run_step a b Hab), (sys_step_length run_step a b Hab). }
  destruct Hspec as [Hspec Hl]. split_and!.
  - by rewrite Hl, Hspec.
  - intros Hpc k n Hk. pose proof (supervisor_inv_reachable run_step run_step_le _ s Hr) as Hinv.
    unfold supervisor_inv in Hinv. rewrite Hpc in Hinv.
    apply (Hinv k); [apply lookup_lt_is_Some; eauto|done].
  - intros e Hpc.
    destruct (exception_inv_reachable run_step (mkSimulation spec g) s) as [_ Hinv]; [| |exact Hr|].
    + simpl. by eapply build_nodes_fresh.
    + simpl. lia.
    + by rewrite Hpc in Hinv.
Qed.
End MainTheorems.

Section MainWitnesses.
Local Open Scope float_scope.

Definition main_builder : NetworkGraphBuilder float := path_graph (Arr1 [0; 0]).

Definition main_input (n : Z) : SpecInput float := mkInput n (Arr1 [0; 0]) 1 1 0.

Lemma setup_invalid_node_count_witness :
  @setup float _ main_builder (main_input 0) = Err InvalidConfiguration.
Proof. apply setup_invalid_node_count. vm_compute. reflexivity. Defined.

Definition main_state : Sys float :=
  init_sys (mkSimulation (mkSpec 2 (Arr1 [0; 0]) 1 1 0)
              (mkGraph (replicate 2 fresh_node) (Arr1 [0; 0]))).

Lemma script_correct_witness :
  length (sys_nodes main_state) =
    Z.to_nat (number_of_nodes (simulation_specification (sys_sim main_state))) /\
  (pc main_state = MPlot ->
   forall k n, sys_nodes main_state !! k = Some n -> has_result_founded n = true) /\
  (forall e, pc main_state = MRaised e -> e = ValueError).
Proof.
  apply (script_correct (B:=main_builder) node_run_step node_run_step_le
           (main_input 2) main_state main_state); [reflexivity|apply rtc_refl].
Defined.
End MainWitnesses.
