(* ===== verification/Typing.v ===== *)
(** * The shape discipline of the estimates

    Line 42 subtracts each estimate from the optimum point; numpy raises
    [ValueError] when the two shapes do not broadcast.  The code does not
    check shapes: whether the report raises depends on the nodes' [run()].
    This file states the discipline as a typing invariant of the running
    script ([typed_sys d]: the optimum has shape [d] and every estimate of
    every node has shape [d]).  Every step preserves it when each node
    keeps to shape [d] ([typed_sys_step]).  With fresh nodes and the
    configured number of nodes, a well-typed run then never raises
    ([script_never_raises]). *)

From stdpp Require Import base list relations.
From Stdlib Require Import ZArith Lia PrimFloat.
From S2P Require Import Prelude NumPy SimulationSpecification NetworkGraph Supervisor Reporter Concurrency Executions.

Section Typing.
Context {F : Type} `{PyFloat F}.

(** Every estimate of node [n] has shape [d]. *)
Definition typed_history (d : list nat) (n : Node F) : Prop :=
  Forall (fun a => shape a = d) (all_calculated_xis n).

(** The optimum and every estimate have shape [d]. *)
Definition typed_sys (d : list nat) (s : Sys F) : Prop :=
  shape (optimum_point (network_graph (sys_sim s))) = d /\
  Forall (typed_history d) (sys_nodes s).

(** A node's [run()] that produces estimates of shape [d] only. *)
Inductive typed_node_step (d : list nat) : Node F -> Node F -> Prop :=
| typed_estimate n x : started n = true -> shape x = d -> typed_node_step d n (node_push x n)
| typed_converge n : started n = true -> typed_node_step d n (node_latch n).

Lemma typed_node_broadcastable (x0 : ndarray F) (nj : Node F) :
  typed_history (shape x0) nj -> forallb (broadcastable x0) (all_calculated_xis nj) = true.
Proof.
  intros Hn. apply forallb_forall. intros xi Hxi. apply shape_broadcastable. symmetry.
  unfold typed_history in Hn. rewrite Forall_forall in Hn. apply Hn. by apply list_elem_of_In.
Qed.

Lemma node_start_typed d n n' :
  node_start (set_daemon n) = Ok n' -> typed_history d n -> typed_history d n'.
Proof. unfold node_start. destruct (started (set_daemon n)); intros Hs; by invc Hs. Qed.

Lemma typed_node_step_le d n n' : typed_node_step d n n' -> node_le n n'.
Proof.
  intros Hs. split.
  - destruct Hs; simpl; [by exists [x]|done].
  - by destruct Hs.
Qed.

Lemma typed_node_step_typed d n n' :
  typed_node_step d n n' -> typed_history d n -> typed_history d n'.
Proof.
  intros [m x _ Hx|m _] Hn; unfold typed_history in *; simpl; [|done].
  apply Forall_app. split; [done|by constructor].
Qed.

Variable run_step : Node F -> Node F -> Prop.
Variable d : list nat.
Hypothesis run_step_typed : forall n n', run_step n n' -> typed_history d n -> typed_history d n'.

Lemma typed_sys_step s s' : typed_sys d s -> sys_step run_step s s' -> typed_sys d s'.
Proof.
  unfold typed_sys, sys_nodes. intros [Hd Hns] [Hm|Ht].
  - destruct Hm as [s i n n' Hp Hn Hst| | | | | | | | | | | | |]; simpl; split; try done.
    apply Forall_insert; [done|]. eapply node_start_typed; [done|].
    by eapply Forall_lookup_1.
  - destruct Ht as [s k n n' Halive Hn Hst Hrun]. simpl. split; [done|].
    apply Forall_insert; [done|]. eapply run_step_typed; [done|]. by eapply Forall_lookup_1.
Qed.

Lemma no_raise_step s s' :
  exception_inv s -> typed_sys d s -> (forall e, pc s <> MRaised e) ->
  sys_step run_step s s' -> forall e, pc s' <> MRaised e.
Proof.
  intros [Hlen Hpc] [Hd Hns] Hnr [Hm|Ht] e; unfold sys_nodes in *.
  - destruct Hm as [s i n n' Hp|s i n e' Hp Hn Hst|s i Hp|s Hp|s Hp|s i n Hp|s i n Hp|s i Hp
                   |s Hp|s j ds fig ds' fig' Hp|s j ds fig e' Hp Hj Hr|s j ds fig fig' Hp
                   |s j ds fig e' Hp Hr|s j ds fig Hp]; simpl; try discriminate.
    + rewrite Hp in Hpc. unfold node_start in Hst. simpl in Hst.
      rewrite (Hpc i n) in Hst by done. discriminate.
    + exfalso. rewrite Hp in Hpc. unfold report_nodes in *.
      destruct (lookup_lt_is_Some_2 (nodes (network_graph (sys_sim s))) j) as [nj Hnj]; [lia|].
      destruct (lookup_lt_is_Some_2 ds j) as [dj Hdj]; [lia|].
      rewrite (report_distances_spec _ _ _ _ _ nj dj Hnj Hdj), distance_series_ok in Hr; [discriminate|].
      apply typed_node_broadcastable. rewrite Hd. by eapply Forall_lookup_1.
    + exfalso. rewrite Hp in Hpc. apply report_estimates_Err in Hr as [_ Hr].
      destruct Hpc. unfold report_nodes in *. lia.
  - destruct Ht. simpl. apply Hnr.
Qed.

(** C18: a well-typed run raises nothing: with fresh nodes, no more nodes
    configured than built, and nodes that keep the optimum's shape, no
    interleaving of the script's threads reaches an uncaught exception. *)
Theorem script_never_raises (sim : Simulation F) s e :
  Forall node_fresh (nodes (network_graph sim)) ->
  Z.to_nat (number_of_nodes (simulation_specification sim)) <= length (nodes (network_graph sim)) ->
  typed_sys d (init_sys sim) ->
  rtc (sys_step run_step) (init_sys sim) s -> pc s <> MRaised e.
Proof.
  intros Hfresh Hlen Htyped Hr.
  enough (Hq : exception_inv s /\ typed_sys d s /\ forall e, pc s <> MRaised e) by apply Hq.
  eapply (rtc_preserved _ (fun s => exception_inv s /\ typed_sys d s /\ forall e, pc s <> MRaised e));
    [|exact Hr|].
  - intros a b (Hi & Ht & Hn) Hab. split_and!.
    + by eapply exception_inv_step.
    + by eapply typed_sys_step.
    + by eapply no_raise_step.
  - split_and!; [|done|discriminate].
    by apply (exception_inv_reachable run_step sim (init_sys sim) Hfresh Hlen (rtc_refl _ _)).
Qed.
End Typing.

(** ** A well-typed one-node run to its end *)
Section TypingWitnesses.

Lemma race_sim_typed : typed_sys [1] (init_sys race_sim).
Proof. split; [reflexivity|repeat constructor]. Qed.

(** Node 0 estimates [[1.]] and latches; the main thread polls, reports
    without error and exits. *)
Lemma reach_typed_exit :
  exists s, rtc (sys_step (typed_node_step [1])) (init_sys race_sim) s /\ pc s = MExit.
Proof.
  eexists. split.
  main_step_tac step_start. main_step_tac step_start_done.
  eapply rtc_l; [right; eapply (step_thread _ _ 0); [reflexivity|reflexivity|reflexivity|];
                 apply (typed_estimate _ _ (Arr1 [1%float])); reflexivity|].
  eapply rtc_l; [right; eapply (step_thread _ _ 0); [reflexivity|reflexivity|reflexivity|];
                 apply typed_converge; reflexivity|].
  main_step_tac step_sleep. main_step_tac step_scan_next.
  eapply rtc_l; [left; eapply step_scan_done; [reflexivity|simpl; lia]|].
  main_step_tac step_wait_exit.
  report_one_node_tac.
  all: [> apply rtc_refl|reflexivity].
Qed.

Lemma script_never_raises_witness :
  exists s, rtc (sys_step (typed_node_step [1])) (init_sys race_sim) s /\ pc s = MExit /\
    pc s <> MRaised ValueError.
Proof.
  destruct reach_typed_exit as (s & Hr & Hpc). exists s. split_and!; [exact Hr|exact Hpc|].
  apply (script_never_raises (typed_node_step [1]) [1] (typed_node_step_typed [1]) race_sim s ValueError).
  - apply Forall_singleton. repeat split.
  - vm_compute. lia.
  - apply race_sim_typed.
  - exact Hr.
Defined.
End TypingWitnesses.
